(** * universityScraper: the retrying Gemini request and its caller loop

    A shallow embedding of [main.py]: Python strings are lists of Unicode
    code points, the three effects of the script (HTTP POST, [time.sleep],
    [print]) and its file writes are recorded in an explicit world, and
    exceptions are values threaded by a small state-and-error monad. *)

From Stdlib Require Import ZArith NArith String Ascii DecimalString Lia.
From stdpp Require Import base list gmap.

Local Open Scope Z_scope.
#[local] Set Warnings "-register-all".

(** ** Python strings *)

Definition codepoint := N.
Definition str := list codepoint.

(** An ASCII literal as a Python [str]. *)
Definition lit (s : string) : str := map N_of_ascii (list_ascii_of_string s).
Arguments lit s%_string.

(** [str.isspace] on one character: the code points CPython treats as
    whitespace, which are the ones [str.strip()] removes. *)
Definition is_space (c : codepoint) : bool :=
  ((9 <=? c) && (c <=? 13) || (28 <=? c) && (c <=? 32) || (c =? 133)
   || (c =? 160) || (c =? 5760) || (8192 <=? c) && (c <=? 8202)
   || (c =? 8232) || (c =? 8233) || (c =? 8239) || (c =? 8287)
   || (c =? 12288))%N.

Fixpoint lstrip (s : str) : str :=
  match s with
  | c :: s' => if is_space c then lstrip s' else s
  | [] => []
  end.

Definition rstrip (s : str) : str := rev (lstrip (rev s)).

(** [s.strip()] *)
Definition strip (s : str) : str := rstrip (lstrip s).

(** [s.replace(old, new)] for a one-character [old]. *)
Fixpoint replace_char (old : codepoint) (new : str) (s : str) : str :=
  match s with
  | c :: s' =>
      (if N.eqb c old then new else [c]) ++ replace_char old new s'
  | [] => []
  end.

(** ** sanitize_filename (main.py, lines 26-32) *)

(** [invalid_chars]: the nine characters [<], [>], [:], the double quote,
    [/], the backslash, [|], [?] and the asterisk. *)
Definition invalid_chars : str := [60; 62; 58; 34; 47; 92; 124; 63; 42]%N.

Definition sanitize_filename (filename : str) : str :=
  strip (fold_left (fun filename char => replace_char char (lit "_") filename)
                   invalid_chars filename).

(** What the nine replacements together do to one character. *)
Definition clean_char (c : codepoint) : codepoint :=
  if bool_decide (c ∈ invalid_chars) then 95%N else c.

(** ** More string helpers *)

Definition nl : str := [10%N].
Definition dquote : str := [34%N].

(** [str(n)] for a Python [int]. *)
Definition str_of_int (n : Z) : str :=
  lit (DecimalString.NilZero.string_of_int (Z.to_int n)).

(** [sep * n] *)
Definition str_repeat (s : str) (n : nat) : str := mjoin (replicate n s).

(** [s.startswith(p)] *)
Fixpoint startswith (p s : str) : bool :=
  match p, s with
  | [], _ => true
  | a :: p', b :: s' => N.eqb a b && startswith p' s'
  | _ :: _, [] => false
  end.

(** [sep in s] *)
Fixpoint contains (sep s : str) : bool :=
  startswith sep s
  || match s with
     | [] => false
     | _ :: s' => contains sep s'
     end.

(** [s.split(sep)] for a non-empty [sep]: the pieces between the
    occurrences of [sep], found left to right without overlap.  [skip] counts
    the characters of a separator still to be passed over and [cur] holds the
    current piece in reverse. *)
Fixpoint split_go (sep : str) (s : str) (skip : nat) (cur : str) : list str :=
  match s with
  | [] => [rev cur]
  | c :: s' =>
      match skip with
      | S k => split_go sep s' k cur
      | O =>
          if startswith sep s
          then rev cur :: split_go sep s' (length sep - 1) []
          else split_go sep s' 0%nat (c :: cur)
      end
  end.

Definition split (sep s : str) : list str := split_go sep s 0%nat [].

(** ** Exceptions *)

(** The classes of exception the script can meet.  All of them derive from
    [Exception]; [RequestException] stands for
    [requests.exceptions.RequestException] and every subclass of it
    ([HTTPError], [ConnectionError], [Timeout], ...), [OtherException] for any
    class not named here.  Interrupts of the process ([KeyboardInterrupt],
    [SystemExit]) are not exceptions in this sense and are not modelled. *)
Inductive exn_class :=
  | RequestException
  | IndexError
  | KeyError
  | AttributeError
  | TypeError
  | ValueError
  | PermissionError
  | OSError
  | OtherException.

(** An exception object: its class and [str(e)]. *)
Record exn := Exn { exn_cls : exn_class; exn_str : str }.

Definition is_RequestException (e : exn) : bool :=
  match exn_cls e with RequestException => true | _ => false end.

(** [requests] derives [RequestException] from [IOError], an alias of
    [OSError]. *)
Definition is_IOError (e : exn) : bool :=
  match exn_cls e with
  | OSError | PermissionError | RequestException => true
  | _ => false
  end.

Definition is_PermissionError (e : exn) : bool :=
  match exn_cls e with PermissionError => true | _ => false end.

Definition is_Exception (e : exn) : bool := true.

(** A computation without effects that returns or raises. *)
Definition res (A : Type) : Type := (A + exn)%type.

#[global] Instance res_ret : MRet res := fun A a => inl a.

#[global] Instance res_bind : MBind res := fun A B f r =>
  match r with
  | inl a => f a
  | inr e => inr e
  end.

(** ** Parsed JSON *)

(** What [response.json()] returns: [None], [bool], [int], [float], [str],
    [list] or [dict].  An object keeps its members in document order; the
    [dict] built from it holds, for a repeated key, the last value. *)
Inductive json :=
  | JNull
  | JBool (b : bool)
  | JInt (n : Z)
  | JFloat (digits : str)
  | JString (s : str)
  | JArray (items : list json)
  | JObject (members : list (str * json)).

(** [type(v).__name__] *)
Definition type_name (v : json) : str :=
  match v with
  | JNull => lit "NoneType"
  | JBool _ => lit "bool"
  | JInt _ => lit "int"
  | JFloat _ => lit "float"
  | JString _ => lit "str"
  | JArray _ => lit "list"
  | JObject _ => lit "dict"
  end.

Fixpoint dict_lookup (key : str) (members : list (str * json)) : option json :=
  match members with
  | [] => None
  | (k, v) :: rest =>
      match dict_lookup key rest with
      | Some v' => Some v'
      | None => if decide (k = key) then Some v else None
      end
  end.

(** [v.get(key, default)] *)
Definition py_get (v : json) (key : str) (dflt : json) : res json :=
  match v with
  | JObject members => inl (default dflt (dict_lookup key members))
  | _ => inr (Exn AttributeError
                (lit "'" ++ type_name v ++ lit "' object has no attribute 'get'"))
  end.

(** [v[0]] *)
Definition py_item0 (v : json) : res json :=
  match v with
  | JArray (x :: _) => inl x
  | JArray [] => inr (Exn IndexError (lit "list index out of range"))
  | JString (c :: _) => inl (JString [c])
  | JString [] => inr (Exn IndexError (lit "string index out of range"))
  | JObject _ => inr (Exn KeyError (lit "0"))
  | _ => inr (Exn TypeError
                (lit "'" ++ type_name v ++ lit "' object is not subscriptable"))
  end.

(** [s + v] for a [str] on the left. *)
Definition py_str_add (s : str) (v : json) : res str :=
  match v with
  | JString t => inl (s ++ t)
  | _ => inr (Exn TypeError
                (lit "can only concatenate str (not " ++ dquote ++ type_name v
                 ++ dquote ++ lit ") to str"))
  end.

(** ** The environment and the world *)

(** What [datetime.now()] returns. *)
Record datetime := DateTime {
  year : N; month : N; day : N; hour : N; minute : N; second : N
}.

Definition digit (n : N) : codepoint := (48 + n mod 10)%N.
Definition pad2 (n : N) : str := [digit (n / 10); digit n].
Definition pad4 (n : N) : str :=
  [digit (n / 1000); digit (n / 100); digit (n / 10); digit n].

(** [t.strftime("%Y-%m-%d %H:%M:%S")] *)
Definition strftime (t : datetime) : str :=
  pad4 (year t) ++ lit "-" ++ pad2 (month t) ++ lit "-" ++ pad2 (day t)
  ++ lit " " ++ pad2 (hour t) ++ lit ":" ++ pad2 (minute t) ++ lit ":"
  ++ pad2 (second t).

(** The POST of lines 105-110.  Headers, the [google_search] tool entry and
    the timeout are constants; what varies is the URL (through the key) and
    the two prompt texts of the payload. *)
Record request := Request {
  req_url : str;
  req_user_query : str;
  req_system_prompt : str
}.

(** A [requests.Response]: what [raise_for_status] reads, and what
    [response.json()] returns or raises. *)
Record response := Response {
  status_code : Z;
  reason : str;
  resp_url : str;
  json_result : res json
}.

Inductive post_result :=
  | PostRaises (e : exn)
  | PostReturns (r : response).

(** What the script does to the outside, in the order it does it. *)
Inductive event :=
  | EvPrint (line : str)
  | EvPost (req : request)
  | EvSleep (seconds : Z).

(** The surroundings of a run: the configured key, the remote end (its
    answer to the [n]-th POST of the process), the clock (its [n]-th
    reading) and the files that cannot be opened for writing. *)
Record env := Env {
  API_KEY : str;
  transport : nat -> request -> post_result;
  clock : nat -> datetime;
  open_fault : str -> option exn
}.

Record world := World {
  w_posts : nat;
  w_clock_reads : nat;
  w_fs : gmap str str;
  w_trace : list event
}.

(** ** A monad for state and exceptions *)

Inductive outcome (A : Type) :=
  | Returns (a : A)
  | Raises (e : exn).
Arguments Returns {A} a.
Arguments Raises {A} e.

Definition M (A : Type) : Type := world -> outcome A * world.

#[global] Instance M_ret : MRet M := fun A a w => (Returns a, w).

#[global] Instance M_bind : MBind M := fun A B f m w =>
  match m w with
  | (Returns a, w') => f a w'
  | (Raises e, w') => (Raises e, w')
  end.

Definition raise {A} (e : exn) : M A := fun w => (Raises e, w).

Definition lift {A} (r : res A) : M A :=
  match r with
  | inl a => mret a
  | inr e => raise e
  end.

(** One [except cls as e: ...] clause: the class test and the handler. *)
Definition clause (A : Type) : Type := ((exn -> bool) * (exn -> M A))%type.

(** The first clause whose class matches handles the exception; with none,
    it propagates. *)
Fixpoint dispatch {A} (clauses : list (clause A)) (e : exn) : M A :=
  match clauses with
  | [] => raise e
  | (is_cls, handler) :: rest =>
      if is_cls e then handler e else dispatch rest e
  end.

Definition try_except {A} (body : M A) (clauses : list (clause A)) : M A :=
  fun w =>
    match body w with
    | (Raises e, w') => dispatch clauses e w'
    | (Returns a, w') => (Returns a, w')
    end.

(** A loop body either falls through to the next iteration or returns from
    the enclosing function. *)
Inductive flow (R : Type) :=
  | Next
  | Return (r : R).
Arguments Next {R}.
Arguments Return {R} r.

Fixpoint for_each {X R} (body : X -> M (flow R)) (xs : list X) : M (flow R) :=
  match xs with
  | [] => mret Next
  | x :: rest =>
      c ← body x;
      match c with
      | Return r => mret (Return r)
      | Next => for_each body rest
      end
  end.

(** ** Primitive effects *)

Definition emit (ev : event) : M unit := fun w =>
  (Returns (), World (w_posts w) (w_clock_reads w) (w_fs w) (w_trace w ++ [ev])).

(** A line that the terminal has taken. *)
Definition printed (line : str) : M unit := emit (EvPrint line).

(** [time.sleep] refuses a negative length. *)
Definition time_sleep (seconds : Z) : M unit :=
  if seconds <? 0
  then raise (Exn ValueError (lit "sleep length must be non-negative"))
  else emit (EvSleep seconds).

Definition datetime_now (E : env) : M datetime := fun w =>
  (Returns (clock E (w_clock_reads w)),
   World (w_posts w) (S (w_clock_reads w)) (w_fs w) (w_trace w)).

(** [requests.post]: the request goes out, and the remote end answers or
    the call raises. *)
Definition requests_post (E : env) (req : request) : M response := fun w =>
  let w' := World (S (w_posts w)) (w_clock_reads w) (w_fs w)
                  (w_trace w ++ [EvPost req]) in
  match transport E (w_posts w) req with
  | PostRaises e => (Raises e, w')
  | PostReturns r => (Returns r, w')
  end.

(** [response.raise_for_status()]: an [HTTPError] for a 4xx or 5xx status. *)
Definition raise_for_status (r : response) : res unit :=
  if (400 <=? status_code r) && (status_code r <? 500) then
    inr (Exn RequestException
           (str_of_int (status_code r) ++ lit " Client Error: " ++ reason r
            ++ lit " for url: " ++ resp_url r))
  else if (500 <=? status_code r) && (status_code r <? 600) then
    inr (Exn RequestException
           (str_of_int (status_code r) ++ lit " Server Error: " ++ reason r
            ++ lit " for url: " ++ resp_url r))
  else inl ().

Definition os_path_exists (path : str) : M bool := fun w =>
  (Returns (bool_decide (is_Some (w_fs w !! path))), w).

(** What the caller loop meets of the terminal and of the device under
    the files: the lines the terminal does not take ([print] then raises, as
    a [UnicodeEncodeError] on text its encoding lacks), and the writes the
    device does not take once the file is open, with what is then left in
    the file. *)
Record host := Host {
  stdout_fault : str -> option exn;
  write_fault : str -> str -> option (exn * str)
}.

(** [print(line)]: the line goes to the terminal, or [print] raises and
    nothing is printed. *)
Definition print (H : host) (line : str) : M unit :=
  match stdout_fault H line with
  | Some e => raise e
  | None => printed line
  end.

(** A lone surrogate, which UTF-8 cannot encode. *)
Definition is_surrogate (c : codepoint) : bool :=
  ((55296 <=? c) && (c <=? 57343))%N.

Definition utf8_encodable (s : str) : bool :=
  forallb (fun c => negb (is_surrogate c)) s.

Definition hex_digit (n : N) : codepoint :=
  (if n mod 16 <? 10 then 48 + n mod 16 else 87 + n mod 16)%N.

(** Where the first surrogate of a string stands, and the surrogates a
    string opens with. *)
Fixpoint first_surrogate (s : str) : nat :=
  match s with
  | [] => 0
  | c :: rest => if is_surrogate c then 0 else S (first_surrogate rest)
  end.

Fixpoint surrogate_run (s : str) : str :=
  match s with
  | [] => []
  | c :: rest => if is_surrogate c then c :: surrogate_run rest else []
  end.

(** The [UnicodeEncodeError] (a [ValueError]) that encoding [s] raises, with
    its [str(e)]: it names the first run of surrogates. *)
Definition encode_error (s : str) : exn :=
  let start := first_surrogate s in
  let run := surrogate_run (drop start s) in
  Exn ValueError
    (match run with
     | [c] =>
         lit "'utf-8' codec can't encode character '\u"
         ++ [hex_digit (c / 4096); hex_digit (c / 256); hex_digit (c / 16);
             hex_digit c]
         ++ lit "' in position " ++ str_of_int (Z.of_nat start)
     | _ =>
         lit "'utf-8' codec can't encode characters in position "
         ++ str_of_int (Z.of_nat start) ++ lit "-"
         ++ str_of_int (Z.of_nat (start + length run - 1))
     end
     ++ lit ": surrogates not allowed").

(** [with open(path, 'w', encoding='utf-8') as f: f.write(data)]: opening
    empties the file; then the text is encoded, and written. *)
Definition write_file (E : env) (H : host) (path data : str) : M unit :=
  fun w =>
    let leave content :=
      World (w_posts w) (w_clock_reads w) (<[path := content]> (w_fs w))
            (w_trace w) in
    match open_fault E path with
    | Some e => (Raises e, w)
    | None =>
        if utf8_encodable data then
          match write_fault H path data with
          | Some (e, remains) => (Raises e, leave remains)
          | None => (Returns (), leave data)
          end
        else (Raises (encode_error data), leave [])
    end.

(** ** generate_transfer_data (main.py, lines 50-140) *)

(** [API_URL], line 16. *)
Definition API_URL (E : env) : str :=
  lit "https://generativelanguage.googleapis.com/v1beta/models/gemini-2.5-flash-preview-09-2025:generateContent?key="
  ++ API_KEY E.

Definition system_prompt (university_name domain : str) : str :=
  nl ++
  lit "    You are an expert data extraction agent. Your task is to perform a grounded web search " ++ nl ++
  lit "    focused ONLY on finding comprehensive transfer student **admissions requirements and application components** for " ++ university_name ++ lit " (" ++ domain ++ lit "). Exclude all financial aid and cost information." ++ nl ++
  nl ++
  lit "    Your goal is to extract all information a prospective transfer student needs to successfully apply, " ++ nl ++
  lit "    organized into three key areas: General Admissions, Credit Transfer, and Major-Specific requirements." ++ nl ++
  nl ++
  lit "    You MUST output a single, RAW TEXT string with the following delimiters. " ++ nl ++
  lit "    Do NOT include any introductory or concluding text, Markdown formatting, or comments." ++ nl ++
  nl ++
  lit "    1. Output general admissions requirements and application components under the tag: --- GENERAL_INFO_START ---" ++ nl ++
  lit "    - Include **Minimum GPA** (by college/major if specified), **Application Deadlines** (priority/final), and **Required Tests** (e.g., SAT/ACT for exceptions)." ++ nl ++
  lit "    - Detail **Transfer Pathways** accepted (e.g., TAG, Associate Degree for Transfer (ADT), articulation agreements)." ++ nl ++
  lit "    - Detail all **Application Components Required**: List the number of required **Essays/Personal Insight Questions (PIQs)**, whether **Letters of Recommendation (LORs)** are accepted/required, and if a **Portfolio** or **Interview** is part of the process." ++ nl ++
  lit "    - Detail **General Education Certification** accepted (e.g., IGETC, CSU Breadth), **Maximum Transferable Units**, and **Residency Requirements** (how many units must be taken at the university)." ++ nl ++
  nl ++
  lit "    2. For **EVERY MAJOR** you encounter on the transfer admissions pages, start a new block with the tag: --- MAJOR_START ---" ++ nl ++
  lit "    - **Crucial Instruction for Breadth:** If specific lower-division course numbers are not listed directly on the transfer page, you MUST still list the major and report the *highest-level guidance* available (e.g., " ++ dquote ++ lit "Requires completion of all IGETC/GE" ++ dquote ++ lit " or " ++ dquote ++ lit "Highly competitive, refer to ASSIST.org for specific course sequence." ++ dquote ++ lit ")." ++ nl ++
  lit "    - If specific course prerequisites ARE found, inside this block, provide the **Major Name**, a list of **Required Lower-Division Courses** (course names/numbers), **Minimum Grade** requirements for those courses, and any **Major Selectivity** status (e.g., " ++ dquote ++ lit "Impacted," ++ dquote ++ lit " " ++ dquote ++ lit "Highly Competitive," ++ dquote ++ lit " enrollment restrictions)." ++ nl ++
  nl ++
  lit "    This final output must be machine-readable and concise." ++ nl ++
  lit "    ".

Definition user_query (university_name domain : str) : str :=
  nl ++
  lit "    Find all major-specific and general transfer prerequisites for " ++ university_name ++ lit " using the search domain " ++ domain ++ lit ". " ++ nl ++
  lit "    Output the data in the requested raw text, delimited format." ++ nl ++
  lit "    ".

Definition fallback_text : str := lit "Failed to generate report text.".

(** Lines 114-117: the chain of [.get] and [[0]]. *)
Definition extract_report_text (result : json) : res json :=
  candidates ← py_get result (lit "candidates") (JArray [JObject []]);
  candidate ← py_item0 candidates;
  content ← py_get candidate (lit "content") (JObject []);
  parts ← py_get content (lit "parts") (JArray [JObject []]);
  part ← py_item0 parts;
  py_get part (lit "text") (JString fallback_text).

(** Lines 120-125. *)
Definition header (university_name domain current_time : str) : str :=
  nl ++ lit "--- UNIVERSITY_START ---" ++ nl
  ++ lit "NAME: " ++ university_name ++ nl
  ++ lit "DOMAIN: " ++ domain ++ nl
  ++ lit "REPORT_DATE: " ++ current_time ++ nl.

(** The text returned at lines 135 and 138, the same in both places. *)
Definition failure_stub (university_name domain current_time : str) (e : exn)
  : str :=
  lit "--- UNIVERSITY_START ---" ++ nl
  ++ lit "NAME: " ++ university_name ++ nl
  ++ lit "DOMAIN: " ++ domain ++ nl
  ++ lit "REPORT_DATE: " ++ current_time ++ nl
  ++ lit "STATUS: FAILED - " ++ exn_str e ++ nl.

(** The request of lines 86-110, built from the key and the two inputs. *)
Definition build_request (E : env) (university_name domain : str) : request :=
  Request (API_URL E) (user_query university_name domain)
          (system_prompt university_name domain).

(** The lines printed inside the function are made of fixed text, numbers,
    the domain and [str(e)]; the caller prints the domain on the same
    terminal at line 165 before the call.  They are taken as [printed], so
    that the function is described on its own, whatever the terminal. *)
Section Attempt.

Variable E : env.
Variables max_retries initial_delay : Z.
Variables university_name domain current_time : str.

(** The [try] block, lines 101-126. *)
Definition try_block : M (flow (option str)) :=
  if bool_decide (API_KEY E = []) then
    printed (lit "FATAL: API_KEY is missing. Skipping LLM call.");;
    mret (Return None)
  else
    response ← requests_post E (build_request E university_name domain);
    lift (raise_for_status response);;
    result ← lift (json_result response);
    report_text ← lift (extract_report_text result);
    text ← lift (py_str_add
                   (strip (header university_name domain current_time) ++ nl)
                   report_text);
    mret (Return (Some (text ++ nl))).

(** The three lines printed by the handlers (131, 134 and 137). *)
Definition retry_line (attempt delay : Z) : str :=
  lit "Request failed for " ++ domain ++ lit " (Attempt "
  ++ str_of_int (attempt + 1) ++ lit "/" ++ str_of_int max_retries
  ++ lit "). Retrying in " ++ str_of_int delay ++ lit "s...".

Definition exhausted_line (e : exn) : str :=
  lit "Failed to generate data for " ++ domain ++ lit " after "
  ++ str_of_int max_retries ++ lit " attempts. Error: " ++ exn_str e.

Definition unexpected_line (e : exn) : str :=
  lit "An unexpected error occurred for " ++ domain ++ lit ": " ++ exn_str e.

(** Lines 128-135. *)
Definition on_request_exception (attempt : Z) (e : exn)
  : M (flow (option str)) :=
  if attempt <? max_retries - 1 then
    let delay := initial_delay * 2 ^ attempt in
    printed (retry_line attempt delay);;
    time_sleep delay;;
    mret Next
  else
    printed (exhausted_line e);;
    mret (Return (Some (failure_stub university_name domain current_time e))).

(** Lines 136-138. *)
Definition on_exception (e : exn) : M (flow (option str)) :=
  printed (unexpected_line e);;
  mret (Return (Some (failure_stub university_name domain current_time e))).

(** One pass of the loop of line 99. *)
Definition attempt_body (attempt : Z) : M (flow (option str)) :=
  try_except try_block
    [ (is_RequestException, on_request_exception attempt);
      (is_Exception, on_exception) ].

End Attempt.

(** The function for any [max_retries] and [initial_delay]; the source sets
    them at lines 96-97. *)
Definition generate_transfer_data_with (E : env) (max_retries initial_delay : Z)
    (university_name domain : str) : M (option str) :=
  now ← datetime_now E;
  let current_time := strftime now in
  r ← for_each
        (attempt_body E max_retries initial_delay university_name domain
                      current_time)
        (seqZ 0 max_retries);
  match r with
  | Return v => mret v
  | Next => mret None
  end.

Definition generate_transfer_data (E : env) (university_name domain : str)
  : M (option str) :=
  generate_transfer_data_with E 5 1 university_name domain.

(** ** The caller loop (main.py, lines 146-202) *)

Definition UNIVERSITY_JSON_FILENAME : str := lit "tester.json".
Definition COLLEGES_DIR : str := lit "colleges".
Definition POLITENESS_DELAY_SECONDS : Z := 3.

(** One record of the loaded list: the loop reads [uni['college_name']] and
    [uni['url']], both strings. *)
Record university := University {
  college_name : str;
  url : str
}.

(** [os.path.join(a, b)] with the POSIX separator. *)
Definition os_path_join (a b : str) : str :=
  if startswith (lit "/") b then b
  else if bool_decide (a = []) || bool_decide (last a = Some 47%N) then a ++ b
  else a ++ lit "/" ++ b.

(** [pieces[i]] on a list. *)
Definition list_item (pieces : list str) (i : nat) : M str :=
  match pieces !! i with
  | Some piece => mret piece
  | None => raise (Exn IndexError (lit "list index out of range"))
  end.

(** The emoji of the progress lines: U+26A0 U+FE0F, U+2705 and U+274C. *)
Definition warning_sign : str := [9888; 65039]%N.
Definition check_mark : str := [9989%N].
Definition cross_mark : str := [10060%N].

Section Caller.

Variable E : env.
Variable H : host.
(** [len(CALIFORNIA_UNIVERSITIES)] *)
Variable total : Z.

(** Lines 171-190: taken when [data_block] is a non-empty string. *)
Definition save_data_block (name data_block : str) : M unit :=
  let safe_filename := sanitize_filename name in
  let file_path := os_path_join COLLEGES_DIR (safe_filename ++ lit ".txt") in
  present ← os_path_exists file_path;
  (if (present : bool) then
     print H (warning_sign ++ lit "  Warning: File already exists for " ++ name
            ++ lit ", overwriting...")
   else mret ());;
  try_except
    (write_file E H file_path data_block;;
     present ← os_path_exists file_path;
     print H (check_mark ++ lit " Data "
            ++ (if (present : bool) then lit "updated" else lit "saved")
            ++ lit " to " ++ file_path))
    [ (is_PermissionError, fun e =>
         print H (cross_mark ++ lit " Error: No permission to write to "
                ++ file_path ++ lit ": " ++ exn_str e));
      (is_IOError, fun e =>
         print H (cross_mark ++ lit " Error saving data for " ++ name
                ++ lit ": " ++ exn_str e));
      (is_Exception, fun e =>
         print H (cross_mark ++ lit " Unexpected error while saving data for "
                ++ name ++ lit ": " ++ exn_str e)) ].

(** The body of the loop of line 160; it returns the new
    [total_processed]. *)
Definition process_university (total_processed : Z) (uni : university)
  : M Z :=
  let name := college_name uni in
  after_scheme ← list_item (split (lit "//") (url uni)) 1;
  domain ← list_item (split (lit "/") after_scheme) 0;
  print H (nl ++ lit "[" ++ str_of_int (total_processed + 1) ++ lit "/"
         ++ str_of_int total ++ lit "] Processing " ++ name ++ lit " ("
         ++ domain ++ lit ")...");;
  data_block ← generate_transfer_data E name domain;
  match data_block with
  | Some ((_ :: _) as text) => save_data_block name text
  | _ => mret ()
  end;;
  let total_processed := total_processed + 1 in
  (if total_processed <? total then
     print H (lit "Pausing for " ++ str_of_int POLITENESS_DELAY_SECONDS
            ++ lit " seconds...");;
     time_sleep POLITENESS_DELAY_SECONDS
   else mret ());;
  mret total_processed.

Fixpoint university_loop (total_processed : Z) (unis : list university)
  : M Z :=
  match unis with
  | [] => mret total_processed
  | uni :: rest =>
      total_processed ← process_university total_processed uni;
      university_loop total_processed rest
  end.

End Caller.

(** The script from line 148 on, given what [load_university_data]
    returned: [None] or the list of records. *)
Definition main (E : env) (H : host)
    (CALIFORNIA_UNIVERSITIES : option (list university)) : M unit :=
  match CALIFORNIA_UNIVERSITIES with
  | Some ((_ :: _) as unis) =>
      let total := Z.of_nat (length unis) in
      print H (lit "Starting database generation for " ++ str_of_int total
             ++ lit " California universities...");;
      total_processed ← university_loop E H total 0 unis;
      print H (nl ++ str_repeat (lit "=") 80);;
      print H (check_mark
             ++ lit " Database Generation Complete! Total universities processed: "
             ++ str_of_int total_processed);;
      print H (lit "Output saved to " ++ COLLEGES_DIR ++ lit "/ directory");;
      print H (str_repeat (lit "=") 80)
  | _ =>
      print H (lit "Script stopped due to missing or invalid university data.");;
      print H (lit "Please ensure '" ++ UNIVERSITY_JSON_FILENAME
             ++ lit "' is in the same directory.")
  end.

(** ** Reading a run *)

(** The POSTs of a trace, its sleeps, and both in order. *)
Definition posts (tr : list event) : list request :=
  omap (fun ev => match ev with EvPost req => Some req | _ => None end) tr.

Definition attempts (tr : list event) : nat := length (posts tr).

Definition sleeps (tr : list event) : list Z :=
  omap (fun ev => match ev with EvSleep d => Some d | _ => None end) tr.

Inductive net_event :=
  | Attempt
  | Sleep (seconds : Z).

Definition network (tr : list event) : list net_event :=
  omap (fun ev => match ev with
                  | EvPost _ => Some Attempt
                  | EvSleep d => Some (Sleep d)
                  | EvPrint _ => None
                  end) tr.

(** The world [n] POSTs and the events [evs] later. *)
Definition advance (w : world) (n : nat) (evs : list event) : world :=
  World (w_posts w + n) (w_clock_reads w) (w_fs w) (w_trace w ++ evs).

(** The world after one more reading of the clock. *)
Definition tick (w : world) : world :=
  World (w_posts w) (S (w_clock_reads w)) (w_fs w) (w_trace w).

(** What lines 105-117 come to once the POST has been answered by [pr]:
    the value bound to [report_text], or the exception raised on the way. *)
Definition report_of (pr : post_result) : res json :=
  match pr with
  | PostRaises e => inr e
  | PostReturns r =>
      raise_for_status r;;
      result ← json_result r;
      extract_report_text result
  end.

(** The same for the whole [try] block, lines 105-126. *)
Definition try_result (university_name domain current_time : str)
    (pr : post_result) : res str :=
  report_text ← report_of pr;
  text ← py_str_add (strip (header university_name domain current_time) ++ nl)
                    report_text;
  mret (text ++ nl).

(** The delays [initial_delay * 2 ** i] for [i] from [attempt], [n] of
    them. *)
Definition backoff (initial_delay attempt : Z) (n : nat) : list Z :=
  (fun i => initial_delay * 2 ^ i) <$> seqZ attempt (Z.of_nat n).

(** [n] attempts from [attempt] on, each followed by its sleep. *)
Fixpoint schedule (initial_delay attempt : Z) (n : nat) : list net_event :=
  match n with
  | O => []
  | S n' =>
      Attempt :: Sleep (initial_delay * 2 ^ attempt)
      :: schedule initial_delay (attempt + 1) n'
  end.

(** The events of [n] attempts from [attempt] on that end in a request
    error and are retried. *)
Fixpoint retry_trace (E : env) (max_retries initial_delay : Z)
    (university_name domain : str) (attempt : Z) (n : nat) : list event :=
  match n with
  | O => []
  | S n' =>
      EvPost (build_request E university_name domain)
      :: EvPrint (retry_line max_retries domain attempt
                             (initial_delay * 2 ^ attempt))
      :: EvSleep (initial_delay * 2 ^ attempt)
      :: retry_trace E max_retries initial_delay university_name domain
                     (attempt + 1) n'
  end.

(** The POST numbered [n] ends in a request error: [requests.post] raises
    one, or the status is 4xx or 5xx, or [response.json()] raises one. *)
Definition request_error (E : env) (req : request) (n : nat) : Prop :=
  exists e, report_of (transport E n req) = inr e
            /\ is_RequestException e = true.

(** The header as returned, up to the time. *)
Definition header_prefix (university_name domain : str) : str :=
  lit "--- UNIVERSITY_START ---" ++ nl
  ++ lit "NAME: " ++ university_name ++ nl
  ++ lit "DOMAIN: " ++ domain ++ nl
  ++ lit "REPORT_DATE: ".

(** Two returned values are the same but for the time written in them:
    both [None], or the same text around [t1] in one and [t2] in the other. *)
Definition same_but_time (t1 t2 : str) (v1 v2 : option str) : Prop :=
  (v1 = None /\ v2 = None)
  \/ exists before after,
       v1 = Some (before ++ t1 ++ after) /\ v2 = Some (before ++ t2 ++ after).

(** The seconds slept in a trace, all together. *)
Definition total_sleep (tr : list event) : Z := foldr Z.add 0 (sleeps tr).

(** The line printed when a record is taken up (line 165). *)
Definition processing_line (total total_processed : Z) (name domain : str)
  : str :=
  nl ++ lit "[" ++ str_of_int (total_processed + 1) ++ lit "/"
  ++ str_of_int total ++ lit "] Processing " ++ name ++ lit " ("
  ++ domain ++ lit ")...".

(** The two events of a pause (lines 196-197). *)
Definition pause : list event :=
  [EvPrint (lit "Pausing for " ++ str_of_int POLITENESS_DELAY_SECONDS
            ++ lit " seconds...");
   EvSleep POLITENESS_DELAY_SECONDS].

(** The events of lines 195-197 once [total_processed] records are done. *)
Definition pause_events (total total_processed : Z) : list event :=
  if total_processed <? total then pause else [].

(** The path of the file of a university (lines 172-173). *)
Definition file_path (name : str) : str :=
  os_path_join COLLEGES_DIR (sanitize_filename name ++ lit ".txt").

(** What saving [text] for the university [name] leaves of the files. *)
Definition files_after_save (E : env) (H : host) (name text : str)
    (files : gmap str str) : gmap str str :=
  match open_fault E (file_path name) with
  | Some _ => files
  | None =>
      if utf8_encodable text then
        match write_fault H (file_path name) text with
        | Some (_, remains) => <[file_path name := remains]> files
        | None => <[file_path name := text]> files
        end
      else <[file_path name := []]> files
  end.

(** The events of several records in a row, with [between] after each of
    them but the last. *)
Fixpoint join_with (between : list event) (segments : list (list event))
  : list event :=
  match segments with
  | [] => []
  | segment :: rest =>
      match rest with
      | [] => segment
      | _ :: _ => segment ++ between ++ join_with between rest
      end
  end.

(** How many sleeps of [d] seconds a trace holds. *)
Definition count_sleeps (d : Z) (tr : list event) : nat :=
  length (filter (fun seconds => seconds = d) (sleeps tr)).

(** How many of the next [n] records are followed by a pause, when
    [total_processed] are done already. *)
Fixpoint count_pauses (total total_processed : Z) (n : nat) : nat :=
  match n with
  | O => O
  | S n' =>
      ((if (total_processed + 1 <? total)%Z then 1 else 0)
       + count_pauses total (total_processed + 1)%Z n')%nat
  end.

(** [if data_block:] on what [generate_transfer_data] returns. *)
Definition truthy (data_block : option str) : bool :=
  match data_block with
  | Some (_ :: _) => true
  | _ => false
  end.

(** ** Sample surroundings *)

Definition sample_world : world := World 0 0 ∅ [].

Definition sample_time : datetime := DateTime 2025 11 3 9 30 7.

(** A clock that shows one second more at each reading. *)
Definition sample_clock (n : nat) : datetime :=
  DateTime 2025 11 3 9 30 (7 + N.of_nat n).

(** A key, and the answer to each POST by its number. *)
Definition sample_env (key : str) (answers : nat -> post_result) : env :=
  Env key (fun n _ => answers n) (fun _ => sample_time) (fun _ => None).

Definition http_500 : post_result :=
  PostReturns (Response 500 (lit "Internal Server Error")
                        (lit "https://generativelanguage.googleapis.com/")
                        (inl JNull)).

Definition http_200 (body : json) : post_result :=
  PostReturns (Response 200 (lit "OK")
                        (lit "https://generativelanguage.googleapis.com/")
                        (inl body)).

(** The body [{"candidates":[{"content":{"parts":[{"text": text}]}}]}]. *)
Definition body_with_text (text : str) : json :=
  JObject [(lit "candidates",
            JArray [JObject [(lit "content",
              JObject [(lit "parts",
                JArray [JObject [(lit "text", JString text)]])])]])].

(** A terminal and a device that take everything. *)
Definition sample_host : host := Host (fun _ => None) (fun _ _ => None).

(** A terminal that encodes what it is given as UTF-8, strictly. *)
Definition strict_utf8_host : host :=
  Host (fun line => if utf8_encodable line then None
                    else Some (encode_error line))
       (fun _ _ => None).

Definition sample_university : university :=
  University (lit "Example University: Main Campus")
             (lit "https://www.example.edu/admissions/transfer").

(** ** Facts about strings *)

Section StringFacts.

Lemma last_rev (s : str) : last (rev s) = head s.
Proof. destruct s as [|c s]; simpl; [done|]. apply last_snoc. Qed.

Lemma head_rev (s : str) : head (rev s) = last s.
Proof. rewrite <- (rev_involutive s) at 2. by rewrite last_rev. Qed.

Lemma lstrip_suffix s : exists p, s = p ++ lstrip s.
Proof.
  induction s as [|c s [p Hp]]; simpl.
  - by exists [].
  - destruct (is_space c).
    + exists (c :: p). simpl. by f_equal.
    + by exists [].
Qed.

Lemma lstrip_head s c : head (lstrip s) = Some c -> is_space c = false.
Proof.
  induction s as [|d s IH]; simpl; [done|].
  destruct (is_space d) eqn:Hd; [done|].
  simpl. intros [= <-]. done.
Qed.

Lemma lstrip_fixed s :
  (forall c, head s = Some c -> is_space c = false) -> lstrip s = s.
Proof.
  destruct s as [|c s]; simpl; [done|].
  intros H. by rewrite (H c eq_refl).
Qed.

Lemma lstrip_app_nonspace s c t :
  is_space c = false -> lstrip (s ++ c :: t) = lstrip s ++ c :: t.
Proof.
  intros Hc. induction s as [|d s IH]; simpl.
  - by rewrite Hc.
  - destruct (is_space d); [done|]. done.
Qed.

Lemma rstrip_snoc_nonspace s c :
  is_space c = false -> rstrip (s ++ [c]) = s ++ [c].
Proof.
  intros Hc. unfold rstrip. rewrite rev_app_distr. simpl.
  rewrite Hc. simpl. by rewrite rev_involutive.
Qed.

Lemma rstrip_prefix s : exists q, s = rstrip s ++ q.
Proof.
  unfold rstrip. destruct (lstrip_suffix (rev s)) as [p Hp].
  exists (rev p). rewrite <- rev_app_distr, <- Hp. by rewrite rev_involutive.
Qed.

Lemma rstrip_last s c : last (rstrip s) = Some c -> is_space c = false.
Proof.
  unfold rstrip. rewrite last_rev. apply lstrip_head.
Qed.

Lemma rstrip_fixed s :
  (forall c, last s = Some c -> is_space c = false) -> rstrip s = s.
Proof.
  intros H. unfold rstrip. rewrite lstrip_fixed.
  - apply rev_involutive.
  - intros c Hc. apply H. by rewrite <- head_rev.
Qed.

(** Stripping the right end keeps a non-space first character first. *)
Lemma rstrip_head s c :
  head (rstrip s) = Some c -> head s = Some c.
Proof.
  destruct (rstrip_prefix s) as [q Hq]. intros H.
  rewrite Hq. destruct (rstrip s); simpl in *; [done|]. done.
Qed.

Lemma strip_head s c : head (strip s) = Some c -> is_space c = false.
Proof.
  unfold strip. intros H. apply rstrip_head in H. by apply lstrip_head in H.
Qed.

Lemma strip_last s c : last (strip s) = Some c -> is_space c = false.
Proof. unfold strip. apply rstrip_last. Qed.

Lemma strip_fixed s :
  (forall c, head s = Some c -> is_space c = false) ->
  (forall c, last s = Some c -> is_space c = false) ->
  strip s = s.
Proof.
  intros Hh Hl. unfold strip. rewrite (lstrip_fixed s Hh). by apply rstrip_fixed.
Qed.

Lemma strip_idem s : strip (strip s) = strip s.
Proof. apply strip_fixed; [apply strip_head | apply strip_last]. Qed.

Lemma strip_subseteq s : strip s ⊆ s.
Proof.
  unfold strip. intros c Hc.
  destruct (rstrip_prefix (lstrip s)) as [q Hq].
  destruct (lstrip_suffix s) as [p Hp].
  rewrite Hp, Hq. set_solver.
Qed.

Lemma replace_char_absent old new s :
  old ∉ s -> replace_char old new s = s.
Proof.
  induction s as [|c s IH]; simpl; [done|].
  intros H. apply not_elem_of_cons in H as [Hne Hs].
  destruct (N.eqb_spec c old); [congruence|].
  simpl. by rewrite IH.
Qed.

Lemma elem_of_replace_char c old new s :
  c ∈ replace_char old new s -> c ∈ new \/ (c ∈ s /\ c <> old).
Proof.
  induction s as [|d s IH]; simpl.
  - by intros ?%elem_of_nil.
  - intros [H|H]%elem_of_app.
    + destruct (N.eqb_spec d old) as [->|Hne]; [by left|].
      apply list_elem_of_singleton in H as ->. right. split; [left|done].
    + destruct (IH H) as [?|[? ?]]; [by left|right]. split; [by right|done].
Qed.

End StringFacts.

(** ** Running the monad *)

(** Texts stay folded in the proofs below. *)
Arguments lit : simpl never.
Arguments strip : simpl never.
Arguments header : simpl never.
Arguments failure_stub : simpl never.
Arguments build_request : simpl never.
Arguments str_of_int : simpl never.
Arguments retry_line : simpl never.
Arguments exhausted_line : simpl never.
Arguments unexpected_line : simpl never.

Section Runs.

Context {A B : Type}.

Lemma run_bind (m : M A) (f : A -> M B) w :
  (m ≫= f) w =
  match m w with
  | (Returns a, w') => f a w'
  | (Raises e, w') => (Raises e, w')
  end.
Proof. reflexivity. Qed.

Lemma run_lift_bind (r : res A) (f : A -> M B) w :
  (lift r ≫= f) w =
  match r with
  | inl a => f a w
  | inr e => (Raises e, w)
  end.
Proof. by destruct r. Qed.

End Runs.

Lemma advance_0 w : advance w 0 [] = w.
Proof.
  destruct w. unfold advance. simpl. by rewrite Nat.add_0_r, app_nil_r.
Qed.

Lemma advance_advance w n evs n' evs' :
  advance (advance w n evs) n' evs' = advance w (n + n') (evs ++ evs').
Proof.
  unfold advance. simpl. by rewrite Nat.add_assoc, app_assoc.
Qed.

Lemma printed_run line w :
  printed line w = (Returns (), advance w 0 [EvPrint line]).
Proof. unfold printed, emit, advance. by rewrite Nat.add_0_r. Qed.

Lemma time_sleep_run d w :
  0 <= d -> time_sleep d w = (Returns (), advance w 0 [EvSleep d]).
Proof.
  intros Hd. unfold time_sleep. destruct (Z.ltb_spec d 0); [lia|].
  unfold emit, advance. by rewrite Nat.add_0_r.
Qed.

Lemma try_result_request_error university_name domain current_time pr e :
  report_of pr = inr e ->
  try_result university_name domain current_time pr = inr e.
Proof. unfold try_result. by intros ->. Qed.

Lemma seqZ_succ k n : seqZ k (Z.of_nat (S n)) = k :: seqZ (k + 1) (Z.of_nat n).
Proof. rewrite seqZ_cons by lia. do 2 f_equal; lia. Qed.

(** ** One attempt *)

Section AttemptFacts.

Variable E : env.
Variables max_retries initial_delay : Z.
Variables university_name domain current_time : str.

Let req := build_request E university_name domain.
Let body :=
  attempt_body E max_retries initial_delay university_name domain current_time.

Hypothesis key_present : API_KEY E <> [].

Lemma try_block_run w :
  try_block E university_name domain current_time w =
  (match try_result university_name domain current_time
           (transport E (w_posts w) req) with
   | inl text => Returns (Return (Some text))
   | inr e => Raises e
   end,
   advance w 1 [EvPost req]).
Proof.
  unfold try_block. rewrite bool_decide_eq_false_2 by done.
  rewrite run_bind. unfold requests_post, try_result, report_of.
  fold req. unfold advance. rewrite Nat.add_1_r.
  destruct (transport E (w_posts w) req) as [e|r]; [reflexivity|].
  rewrite run_lift_bind.
  destruct (raise_for_status r) as [[]|e]; [|reflexivity].
  cbn [mbind res_bind]. rewrite run_lift_bind.
  destruct (json_result r) as [result|e]; [|reflexivity].
  cbn [mbind res_bind]. rewrite run_lift_bind.
  destruct (extract_report_text result) as [report_text|e]; [|reflexivity].
  cbn [mbind res_bind]. rewrite run_lift_bind.
  destruct (py_str_add _ report_text); reflexivity.
Qed.

(** The attempt returns the report. *)
Lemma attempt_success attempt w text :
  try_result university_name domain current_time
             (transport E (w_posts w) req) = inl text ->
  body attempt w = (Returns (Return (Some text)), advance w 1 [EvPost req]).
Proof.
  intros H. unfold body, attempt_body, try_except.
  by rewrite try_block_run, H.
Qed.

(** A request error before the last attempt: a line, a sleep, and on to
    the next attempt. *)
Lemma attempt_retry attempt w e :
  try_result university_name domain current_time
             (transport E (w_posts w) req) = inr e ->
  is_RequestException e = true ->
  attempt < max_retries - 1 ->
  0 <= initial_delay * 2 ^ attempt ->
  body attempt w =
  (Returns Next,
   advance w 1 [EvPost req; EvPrint (retry_line max_retries domain attempt
                                    (initial_delay * 2 ^ attempt));
                EvSleep (initial_delay * 2 ^ attempt)]).
Proof.
  intros H Hreq Hlt Hd. unfold body, attempt_body, try_except.
  rewrite try_block_run, H. simpl. rewrite Hreq.
  unfold on_request_exception.
  destruct (Z.ltb_spec attempt (max_retries - 1)); [|lia].
  rewrite run_bind, printed_run, run_bind, time_sleep_run by done.
  unfold mret, M_ret. by rewrite !advance_advance.
Qed.

(** A request error on the last attempt: a line and the failure text. *)
Lemma attempt_exhausted attempt w e :
  try_result university_name domain current_time
             (transport E (w_posts w) req) = inr e ->
  is_RequestException e = true ->
  max_retries - 1 <= attempt ->
  body attempt w =
  (Returns (Return (Some (failure_stub university_name domain current_time e))),
   advance w 1 [EvPost req; EvPrint (exhausted_line max_retries domain e)]).
Proof.
  intros H Hreq Hge. unfold body, attempt_body, try_except.
  rewrite try_block_run, H. simpl. rewrite Hreq.
  unfold on_request_exception.
  destruct (Z.ltb_spec attempt (max_retries - 1)); [lia|].
  rewrite run_bind, printed_run.
  unfold mret, M_ret. by rewrite !advance_advance.
Qed.

(** Any other exception, on any attempt: a line and the failure text. *)
Lemma attempt_unexpected attempt w e :
  try_result university_name domain current_time
             (transport E (w_posts w) req) = inr e ->
  is_RequestException e = false ->
  body attempt w =
  (Returns (Return (Some (failure_stub university_name domain current_time e))),
   advance w 1 [EvPost req; EvPrint (unexpected_line domain e)]).
Proof.
  intros H Hreq. unfold body, attempt_body, try_except.
  rewrite try_block_run, H. simpl. rewrite Hreq. simpl.
  unfold on_exception.
  rewrite run_bind, printed_run.
  unfold mret, M_ret. by rewrite !advance_advance.
Qed.

(** [n] request errors in a row, none on the last index, are [n] passes
    of the loop that fall through. *)
Lemma for_each_retries n : forall k w rest,
  0 <= initial_delay ->
  0 <= k ->
  k + Z.of_nat n <= max_retries - 1 ->
  (forall i, (i < n)%nat -> request_error E req (w_posts w + i)) ->
  for_each body (seqZ k (Z.of_nat n) ++ rest) w =
  for_each body rest
    (advance w n (retry_trace E max_retries initial_delay university_name
                              domain k n)).
Proof.
  induction n as [|n IH]; intros k w rest Hd Hk Hle Herr.
  - change (seqZ k (Z.of_nat 0)) with (@nil Z). cbn [app retry_trace].
    by rewrite advance_0.
  - rewrite seqZ_succ. cbn [app for_each]. rewrite run_bind.
    destruct (Herr 0%nat ltac:(lia)) as (e & He & Hreq).
    rewrite Nat.add_0_r in He.
    rewrite (attempt_retry k w e); [| |done|lia|].
    + rewrite IH; [|done|lia|lia|].
      * rewrite advance_advance. reflexivity.
      * intros i Hi. cbn [advance w_posts].
        replace (w_posts w + 1 + i)%nat with (w_posts w + S i)%nat by lia.
        apply Herr. lia.
    + by apply try_result_request_error.
    + apply Z.mul_nonneg_nonneg; [done|]. apply Z.pow_nonneg. lia.
Qed.

End AttemptFacts.

(** ** Counting in the trace of retried attempts *)

Section TraceFacts.

Variable E : env.
Variables max_retries initial_delay : Z.
Variables university_name domain : str.

Let retries := retry_trace E max_retries initial_delay university_name domain.

Lemma attempts_app tr tr' : attempts (tr ++ tr') = (attempts tr + attempts tr')%nat.
Proof. unfold attempts, posts. by rewrite omap_app, length_app. Qed.

Lemma sleeps_app tr tr' : sleeps (tr ++ tr') = sleeps tr ++ sleeps tr'.
Proof. apply omap_app. Qed.

Lemma network_app tr tr' : network (tr ++ tr') = network tr ++ network tr'.
Proof. apply omap_app. Qed.

Lemma attempts_retry_trace n : forall k, attempts (retries k n) = n.
Proof.
  induction n as [|n IH]; intros k; [done|].
  unfold attempts, posts in *. cbn [retries retry_trace omap list_omap length].
  f_equal. apply IH.
Qed.

Lemma sleeps_retry_trace n : forall k,
  sleeps (retries k n) = backoff initial_delay k n.
Proof.
  induction n as [|n IH]; intros k; [done|].
  unfold backoff. rewrite seqZ_succ. cbn [fmap list_fmap].
  unfold sleeps in *. cbn [retries retry_trace omap list_omap].
  f_equal. apply IH.
Qed.

Lemma network_retry_trace n : forall k,
  network (retries k n) = schedule initial_delay k n.
Proof.
  induction n as [|n IH]; intros k; [done|].
  unfold network in *. cbn [retries retry_trace omap list_omap schedule].
  do 2 f_equal. apply IH.
Qed.

End TraceFacts.

(** ** The whole function *)

Section GenerateFacts.

Variable E : env.
Variables max_retries initial_delay : Z.
Variables university_name domain : str.

Let req := build_request E university_name domain.
Let retries := retry_trace E max_retries initial_delay university_name domain.
Let now (w : world) : str := strftime (clock E (w_clock_reads w)).

Lemma generate_run w :
  generate_transfer_data_with E max_retries initial_delay university_name
                              domain w =
  match for_each (attempt_body E max_retries initial_delay university_name
                               domain (now w))
                 (seqZ 0 max_retries) (tick w) with
  | (Returns (Return v), w') => (Returns v, w')
  | (Returns Next, w') => (Returns None, w')
  | (Raises e, w') => (Raises e, w')
  end.
Proof.
  unfold generate_transfer_data_with. rewrite run_bind.
  unfold datetime_now. fold (tick w). rewrite run_bind. fold (now w).
  by destruct (for_each _ _ _) as [[[|v]|e] w'].
Qed.

(** After [k] request errors the function returns what attempt [k]
    returns, if that attempt returns at all. *)
Lemma generate_after_retries (k : nat) w v w' :
  API_KEY E <> [] ->
  0 <= initial_delay ->
  Z.of_nat k < max_retries ->
  (forall i, (i < k)%nat -> request_error E req (w_posts w + i)) ->
  attempt_body E max_retries initial_delay university_name domain (now w)
               (Z.of_nat k) (advance (tick w) k (retries 0 k))
    = (Returns (Return v), w') ->
  generate_transfer_data_with E max_retries initial_delay university_name
                              domain w = (Returns v, w').
Proof.
  intros Hkey Hd Hk Herr Hlast. rewrite generate_run.
  replace max_retries with (Z.of_nat k + (max_retries - Z.of_nat k)) at 2
    by lia.
  rewrite seqZ_app by lia.
  rewrite (for_each_retries E max_retries initial_delay university_name
             domain (now w) Hkey k 0 (tick w)); [|done|done|lia|done].
  rewrite seqZ_cons by lia. cbn [for_each]. rewrite run_bind.
  rewrite Z.add_0_l. fold retries. by rewrite Hlast.
Qed.

End GenerateFacts.

(** Without a key the first pass prints one line and returns [None]. *)
Lemma generate_without_key E (N d : Z) university_name domain w :
  API_KEY E = [] ->
  1 <= N ->
  generate_transfer_data_with E N d university_name domain w =
  (Returns None,
   advance (tick w) 0
     [EvPrint (lit "FATAL: API_KEY is missing. Skipping LLM call.")]).
Proof.
  intros Hkey HN.
  rewrite generate_run, seqZ_cons by lia. cbn [for_each]. rewrite run_bind.
  unfold attempt_body, try_except, try_block.
  rewrite bool_decide_eq_true_2 by done.
  rewrite run_bind, printed_run. reflexivity.
Qed.

(** ** The retry budget *)

(** C1.  With a key configured, [max_retries = N >= 1] and a non-negative
    [initial_delay], if every one of the [N] POSTs ends in a request error,
    then the function makes exactly [N] attempts, sleeps
    [initial_delay * 2 ^ i] after attempt [i] for [i = 0 .. N-2] and not
    after the last one, and returns the failure text. *)
Theorem all_attempts_fail E (N d : Z) university_name domain w :
  1 <= N ->
  0 <= d ->
  API_KEY E <> [] ->
  (forall i, (i < Z.to_nat N)%nat ->
     request_error E (build_request E university_name domain) (w_posts w + i)) ->
  exists e evs,
    generate_transfer_data_with E N d university_name domain w =
      (Returns (Some (failure_stub university_name domain
                        (strftime (clock E (w_clock_reads w))) e)),
       advance (tick w) (Z.to_nat N) evs)
    /\ attempts evs = Z.to_nat N
    /\ sleeps evs = backoff d 0 (Z.to_nat (N - 1))
    /\ network evs = schedule d 0 (Z.to_nat (N - 1)) ++ [Attempt].
Proof.
  intros HN Hd Hkey Herr.
  set (k := Z.to_nat (N - 1)).
  assert (Hk : Z.to_nat N = S k) by (unfold k; lia).
  destruct (Herr k ltac:(lia)) as (e & He & Hreq).
  exists e.
  exists (retry_trace E N d university_name domain 0 k
          ++ [EvPost (build_request E university_name domain);
              EvPrint (exhausted_line N domain e)]).
  split; [|split; [|split]].
  - apply (generate_after_retries E N d university_name domain k);
      [done|done|lia| |].
    + intros i Hi. apply Herr. lia.
    + rewrite (attempt_exhausted E N d university_name domain _ Hkey _ _ e);
        [| |done|lia].
      * rewrite advance_advance, Hk. do 3 f_equal. lia.
      * apply try_result_request_error. exact He.
  - rewrite attempts_app, attempts_retry_trace, Hk. cbn. lia.
  - rewrite sleeps_app, sleeps_retry_trace. cbn. by rewrite app_nil_r.
  - rewrite network_app, network_retry_trace. reflexivity.
Qed.

Lemma all_attempts_fail_witness :
  exists e evs,
    generate_transfer_data_with (sample_env (lit "key") (fun _ => http_500))
        3 1 (lit "Example University") (lit "www.example.edu") sample_world =
      (Returns (Some (failure_stub (lit "Example University")
                        (lit "www.example.edu") (strftime sample_time) e)),
       advance (tick sample_world) 3 evs)
    /\ attempts evs = 3%nat
    /\ sleeps evs = [1; 2]
    /\ network evs = [Attempt; Sleep 1; Attempt; Sleep 2; Attempt].
Proof.
  apply (all_attempts_fail (sample_env (lit "key") (fun _ => http_500)) 3 1
           (lit "Example University") (lit "www.example.edu") sample_world).
  - lia.
  - lia.
  - vm_compute. discriminate.
  - intros i _. eexists. split; vm_compute; reflexivity.
Defined.

(** C6.  With a key configured, if the first [k] POSTs end in request
    errors and attempt [k] (any [k < max_retries], so in particular any
    [k < max_retries - 1]) succeeds, then exactly [k + 1] attempts and [k]
    sleeps occur, one sleep before each retry, the last event on the network
    is the successful attempt, and its report is returned. *)
Theorem success_after_retries E (N d : Z) university_name domain w (k : nat)
    text :
  API_KEY E <> [] ->
  0 <= d ->
  Z.of_nat k < N ->
  (forall i, (i < k)%nat ->
     request_error E (build_request E university_name domain) (w_posts w + i)) ->
  try_result university_name domain (strftime (clock E (w_clock_reads w)))
    (transport E (w_posts w + k) (build_request E university_name domain))
    = inl text ->
  exists evs,
    generate_transfer_data_with E N d university_name domain w =
      (Returns (Some text), advance (tick w) (S k) evs)
    /\ attempts evs = S k
    /\ sleeps evs = backoff d 0 k
    /\ length (sleeps evs) = k
    /\ network evs = schedule d 0 k ++ [Attempt].
Proof.
  intros Hkey Hd Hk Herr Hok.
  exists (retry_trace E N d university_name domain 0 k
          ++ [EvPost (build_request E university_name domain)]).
  assert (Hs : sleeps (retry_trace E N d university_name domain 0 k
                       ++ [EvPost (build_request E university_name domain)])
               = backoff d 0 k).
  { rewrite sleeps_app, sleeps_retry_trace. cbn. by rewrite app_nil_r. }
  split; [|split; [|split; [|split]]].
  - apply (generate_after_retries E N d university_name domain k);
      [done|done|lia|done|].
    rewrite (attempt_success E N d university_name domain _ Hkey _ _ text).
    + rewrite advance_advance. do 3 f_equal. lia.
    + exact Hok.
  - rewrite attempts_app, attempts_retry_trace. cbn. lia.
  - exact Hs.
  - rewrite Hs. unfold backoff. rewrite length_fmap, length_seqZ. lia.
  - rewrite network_app, network_retry_trace. reflexivity.
Qed.

Lemma success_after_retries_witness :
  exists evs,
    generate_transfer_data_with
        (sample_env (lit "key")
           (fun n => if (n <? 2)%nat then http_500
                     else http_200 (body_with_text (lit "X"))))
        5 1 (lit "Example University") (lit "www.example.edu") sample_world =
      (Returns (Some (lit "--- UNIVERSITY_START ---" ++ nl
                      ++ lit "NAME: Example University" ++ nl
                      ++ lit "DOMAIN: www.example.edu" ++ nl
                      ++ lit "REPORT_DATE: 2025-11-03 09:30:07" ++ nl
                      ++ lit "X" ++ nl)),
       advance (tick sample_world) 3 evs)
    /\ attempts evs = 3%nat
    /\ sleeps evs = [1; 2]
    /\ length (sleeps evs) = 2%nat
    /\ network evs = [Attempt; Sleep 1; Attempt; Sleep 2; Attempt].
Proof.
  apply (success_after_retries
           (sample_env (lit "key")
              (fun n => if (n <? 2)%nat then http_500
                        else http_200 (body_with_text (lit "X"))))
           5 1 (lit "Example University") (lit "www.example.edu")
           sample_world 2).
  - vm_compute. discriminate.
  - lia.
  - lia.
  - intros i Hi. eexists.
    destruct i as [|[|i]]; [split; vm_compute; reflexivity ..|lia].
  - vm_compute. reflexivity.
Defined.

(** ** The missing key *)

(** C3.  With no key configured and [max_retries >= 1], the function
    returns at once what it returns on failure here, [None]: it prints one
    line, makes no POST and does not sleep. *)
Theorem missing_key_short_circuits E (N d : Z) university_name domain w :
  API_KEY E = [] ->
  1 <= N ->
  exists evs,
    generate_transfer_data_with E N d university_name domain w =
      (Returns None, advance (tick w) 0 evs)
    /\ evs = [EvPrint (lit "FATAL: API_KEY is missing. Skipping LLM call.")]
    /\ attempts evs = 0%nat
    /\ sleeps evs = [].
Proof.
  intros Hkey HN. eexists. split; [|split; [reflexivity|split; reflexivity]].
  rewrite generate_run, seqZ_cons by lia. cbn [for_each]. rewrite run_bind.
  unfold attempt_body, try_except, try_block.
  rewrite bool_decide_eq_true_2 by done.
  rewrite run_bind, printed_run. reflexivity.
Qed.

Lemma missing_key_short_circuits_witness :
  exists evs,
    generate_transfer_data_with (sample_env [] (fun _ => http_500)) 5 1
        (lit "Example University") (lit "www.example.edu") sample_world =
      (Returns None, advance (tick sample_world) 0 evs)
    /\ evs = [EvPrint (lit "FATAL: API_KEY is missing. Skipping LLM call.")]
    /\ attempts evs = 0%nat
    /\ sleeps evs = [].
Proof.
  apply (missing_key_short_circuits (sample_env [] (fun _ => http_500)) 5 1
           (lit "Example University") (lit "www.example.edu") sample_world).
  - reflexivity.
  - lia.
Defined.

(** ** Unexpected exceptions *)




(** ** The shape of what is returned *)

Lemma inl_eq {A B : Type} (a a' : A) : @inl A B a = inl a' -> a = a'.
Proof. intros H. by injection H. Qed.

Lemma rstrip_app_nonspace p c t :
  is_space c = false -> rstrip (p ++ c :: t) = p ++ c :: rstrip t.
Proof.
  intros Hc. unfold rstrip.
  rewrite rev_app_distr. cbn [rev]. rewrite <- app_assoc. cbn [app].
  rewrite lstrip_app_nonspace by done.
  rewrite rev_app_distr. cbn [rev]. rewrite rev_involutive.
  by rewrite <- app_assoc.
Qed.

Lemma marker_last :
  lit "--- UNIVERSITY_START ---" = lit "--- UNIVERSITY_START --" ++ [45%N].
Proof. reflexivity. Qed.

(** The stripped header still opens with the marker line, whatever the
    name, the domain and the time are. *)
Lemma strip_header_marker university_name domain current_time :
  exists rest,
    strip (header university_name domain current_time) =
    lit "--- UNIVERSITY_START ---" ++ rest.
Proof.
  unfold header, strip, nl. cbn [app lstrip].
  change (is_space 10%N) with true. cbv iota.
  rewrite marker_last, <- !app_assoc.
  change (lit "--- UNIVERSITY_START --") with
    (45%N :: lit "-- UNIVERSITY_START --") at 1.
  cbn [app lstrip]. change (is_space 45%N) with false. cbv iota.
  change (45%N :: lit "-- UNIVERSITY_START --" ++ ?t) with
    (lit "--- UNIVERSITY_START --" ++ t).
  rewrite rstrip_app_nonspace by reflexivity.
  eexists. reflexivity.
Qed.

Lemma failure_stub_marker university_name domain current_time e :
  exists rest,
    failure_stub university_name domain current_time e =
    lit "--- UNIVERSITY_START ---" ++ rest.
Proof. unfold failure_stub. eexists. reflexivity. Qed.

(** What the [try] block returns, when it returns, opens with the marker. *)
Lemma try_result_marker university_name domain current_time pr text :
  try_result university_name domain current_time pr = inl text ->
  exists rest, text = lit "--- UNIVERSITY_START ---" ++ rest.
Proof.
  unfold try_result. destruct (report_of pr) as [v|e]; [|done].
  cbn [mbind res_bind].
  destruct v; cbn [py_str_add mbind res_bind mret res_ret];
    try (intros H; discriminate H).
  intros H. apply inl_eq in H. subst text.
  destruct (strip_header_marker university_name domain current_time)
    as [rest ->].
  rewrite <- !app_assoc. eexists. reflexivity.
Qed.

Section Outcome.

Variable E : env.
Variables max_retries initial_delay : Z.
Variables university_name domain current_time : str.

Let req := build_request E university_name domain.
Let body :=
  attempt_body E max_retries initial_delay university_name domain current_time.

Hypothesis key_present : API_KEY E <> [].
Hypothesis delay_nonneg : 0 <= initial_delay.

(** With a key, the passes from [k] to the last index end in a [return] of
    a text that opens with the marker: the loop is never left by running
    out of indices. *)
Lemma for_each_returns_text n : forall k w,
  0 <= k ->
  k + Z.of_nat (S n) = max_retries ->
  exists s w',
    for_each body (seqZ k (Z.of_nat (S n))) w = (Returns (Return (Some s)), w')
    /\ exists rest, s = lit "--- UNIVERSITY_START ---" ++ rest.
Proof.
  induction n as [|n IH]; intros k w Hk Hend;
    rewrite seqZ_succ; cbn [for_each]; rewrite run_bind; unfold body at 1;
    destruct (try_result university_name domain current_time
                (transport E (w_posts w) req)) as [text|e] eqn:Htry.
  - rewrite (attempt_success E max_retries initial_delay university_name
               domain current_time key_present k w text Htry).
    do 2 eexists. split; [reflexivity|]. by eapply try_result_marker.
  - destruct (is_RequestException e) eqn:Hcls.
    + rewrite (attempt_exhausted E max_retries initial_delay university_name
                 domain current_time key_present k w e Htry Hcls); [|lia].
      do 2 eexists. split; [reflexivity|]. apply failure_stub_marker.
    + rewrite (attempt_unexpected E max_retries initial_delay university_name
                 domain current_time key_present k w e Htry Hcls).
      do 2 eexists. split; [reflexivity|]. apply failure_stub_marker.
  - rewrite (attempt_success E max_retries initial_delay university_name
               domain current_time key_present k w text Htry).
    do 2 eexists. split; [reflexivity|]. by eapply try_result_marker.
  - destruct (is_RequestException e) eqn:Hcls.
    + rewrite (attempt_retry E max_retries initial_delay university_name
                 domain current_time key_present k w e Htry Hcls); [|lia|].
      * apply IH; lia.
      * apply Z.mul_nonneg_nonneg; [done|]. apply Z.pow_nonneg. lia.
    + rewrite (attempt_unexpected E max_retries initial_delay university_name
                 domain current_time key_present k w e Htry Hcls).
      do 2 eexists. split; [reflexivity|]. apply failure_stub_marker.
Qed.

End Outcome.

(** What the function returns for any positive [max_retries]: [None]
    without a key, a text that opens with the marker with one. *)
Lemma generate_outcome E (N d : Z) university_name domain w :
  1 <= N ->
  0 <= d ->
  (API_KEY E = []
   /\ exists w',
        generate_transfer_data_with E N d university_name domain w
        = (Returns None, w'))
  \/ (API_KEY E <> []
      /\ exists rest w',
           generate_transfer_data_with E N d university_name domain w
           = (Returns (Some (lit "--- UNIVERSITY_START ---" ++ rest)), w')).
Proof.
  intros HN Hd. destruct (decide (API_KEY E = [])) as [Hkey|Hkey].
  - left. split; [done|].
    rewrite (generate_without_key E N d university_name domain w Hkey HN).
    by eexists.
  - right. split; [done|]. rewrite generate_run.
    destruct (for_each_returns_text E N d university_name domain
                (strftime (clock E (w_clock_reads w))) Hkey Hd
                (Z.to_nat (N - 1)) 0 (tick w)) as (s & w' & Hrun & rest & ->);
      [lia|lia|].
    replace (Z.of_nat (S (Z.to_nat (N - 1)))) with N in Hrun by lia.
    rewrite Hrun. by do 2 eexists.
Qed.



(** ** sanitize_filename *)

Section Sanitize.

Let underscore := lit "_".
Let step (filename : str) (char : codepoint) : str :=
  replace_char char underscore filename.

Lemma not_underscore c : c ∈ invalid_chars -> c ∉ underscore.
Proof.
  intros Hc Hu. apply list_elem_of_singleton in Hu. subst c.
  unfold invalid_chars in Hc.
  repeat (apply elem_of_cons in Hc as [Hc|Hc]; [discriminate Hc|]).
  by apply elem_of_nil in Hc.
Qed.

(** A character that no replacement writes stays absent. *)
Lemma fold_keeps_absent c l : forall s,
  c ∉ underscore -> c ∉ s -> c ∉ fold_left step l s.
Proof.
  induction l as [|d l IH]; intros s Hu Hs; [done|].
  cbn [fold_left]. apply IH; [done|].
  intros [?|[? _]]%elem_of_replace_char; done.
Qed.

Lemma fold_removes c l : forall s,
  c ∉ underscore -> c ∈ l -> c ∉ fold_left step l s.
Proof.
  induction l as [|d l IH]; intros s Hu Hc; [by apply elem_of_nil in Hc|].
  cbn [fold_left]. apply elem_of_cons in Hc as [->|Hc].
  - apply fold_keeps_absent; [done|].
    intros [?|[_ ?]]%elem_of_replace_char; done.
  - by apply IH.
Qed.

Lemma fold_fixed l : forall s,
  (forall c, c ∈ l -> c ∉ s) -> fold_left step l s = s.
Proof.
  induction l as [|d l IH]; intros s H; [done|].
  cbn [fold_left]. unfold step at 2.
  rewrite replace_char_absent by (apply H; left).
  apply IH. intros c Hc. apply H. by right.
Qed.

Lemma sanitize_filename_clean s c :
  c ∈ invalid_chars -> c ∉ sanitize_filename s.
Proof.
  intros Hc Hin. unfold sanitize_filename in Hin.
  apply strip_subseteq in Hin. revert Hin.
  apply (fold_removes c invalid_chars s); [|done]. by apply not_underscore.
Qed.

End Sanitize.

(** C10.  [sanitize_filename] is idempotent, and what it returns holds none
    of the nine invalid characters and neither starts nor ends with
    whitespace. *)
Theorem sanitize_filename_idempotent s :
  sanitize_filename (sanitize_filename s) = sanitize_filename s
  /\ (forall c, c ∈ invalid_chars -> c ∉ sanitize_filename s)
  /\ (forall c, head (sanitize_filename s) = Some c -> is_space c = false)
  /\ (forall c, last (sanitize_filename s) = Some c -> is_space c = false).
Proof.
  split; [|split; [|split]].
  - unfold sanitize_filename at 1.
    rewrite fold_fixed.
    + unfold sanitize_filename. apply strip_idem.
    + intros c Hc. by apply sanitize_filename_clean.
  - intros c. apply sanitize_filename_clean.
  - intros c. unfold sanitize_filename. apply strip_head.
  - intros c. unfold sanitize_filename. apply strip_last.
Qed.

(** ** A body without candidates *)

(** The chain of defaults gives the placeholder when a key is absent at any
    level. *)
Lemma extract_report_text_defaults :
  extract_report_text (JObject []) = inl (JString fallback_text)
  /\ extract_report_text (JObject [(lit "candidates", JArray [JObject []])])
     = inl (JString fallback_text)
  /\ extract_report_text
       (JObject [(lit "candidates",
                  JArray [JObject [(lit "content", JObject [])]])])
     = inl (JString fallback_text)
  /\ extract_report_text
       (JObject [(lit "candidates",
                  JArray [JObject [(lit "content",
                    JObject [(lit "parts", JArray [JObject []])])]])])
     = inl (JString fallback_text).
Proof. repeat split; vm_compute; reflexivity. Qed.

(** The placeholder is returned as the report, after one attempt. *)
Lemma missing_keys_give_placeholder :
  generate_transfer_data (sample_env (lit "key") (fun _ => http_200 (JObject [])))
    (lit "Example University") (lit "www.example.edu") sample_world =
  (Returns (Some (lit "--- UNIVERSITY_START ---" ++ nl
                  ++ lit "NAME: Example University" ++ nl
                  ++ lit "DOMAIN: www.example.edu" ++ nl
                  ++ lit "REPORT_DATE: 2025-11-03 09:30:07" ++ nl
                  ++ fallback_text ++ nl)),
   advance (tick sample_world) 1
     [EvPost (build_request
                (sample_env (lit "key") (fun _ => http_200 (JObject [])))
                (lit "Example University") (lit "www.example.edu"))]).
Proof. vm_compute. reflexivity. Qed.

(** C4 at the body [{"candidates": []}], a 200 response without the text
    field: [[][0]] raises [IndexError], the second handler takes it, and the
    function returns the failure text, not the placeholder.  One attempt is
    made and nothing is retried. *)
Theorem empty_candidates_fail :
  generate_transfer_data
    (sample_env (lit "key")
       (fun _ => http_200 (JObject [(lit "candidates", JArray [])])))
    (lit "Example University") (lit "www.example.edu") sample_world =
  (Returns (Some (lit "--- UNIVERSITY_START ---" ++ nl
                  ++ lit "NAME: Example University" ++ nl
                  ++ lit "DOMAIN: www.example.edu" ++ nl
                  ++ lit "REPORT_DATE: 2025-11-03 09:30:07" ++ nl
                  ++ lit "STATUS: FAILED - list index out of range" ++ nl)),
   advance (tick sample_world) 1
     [EvPost (build_request
                (sample_env (lit "key")
                   (fun _ => http_200 (JObject [(lit "candidates", JArray [])])))
                (lit "Example University") (lit "www.example.edu"));
      EvPrint (lit "An unexpected error occurred for www.example.edu: list index out of range")]).
Proof. vm_compute. reflexivity. Qed.

(** ** Two calls *)

Lemma is_space_digit n : is_space (digit n) = false.
Proof.
  unfold is_space, digit.
  assert (Hx : (n mod 10 < 10)%N) by (apply N.mod_upper_bound; lia).
  revert Hx. generalize (n mod 10)%N. intros x Hx.
  repeat match goal with
         | |- context [N.leb ?a ?b] =>
             destruct (N.leb_spec a b); try (exfalso; lia)
         | |- context [N.eqb ?a ?b] =>
             destruct (N.eqb_spec a b); try (exfalso; lia)
         end.
  reflexivity.
Qed.

(** A time as [strftime] writes it ends with a digit. *)
Lemma strftime_last t :
  exists t0 c, strftime t = t0 ++ [c] /\ is_space c = false.
Proof.
  exists (pad4 (year t) ++ lit "-" ++ pad2 (month t) ++ lit "-"
          ++ pad2 (day t) ++ lit " " ++ pad2 (hour t) ++ lit ":"
          ++ pad2 (minute t) ++ lit ":" ++ [digit (second t / 10)]),
         (digit (second t)).
  split; [|apply is_space_digit].
  unfold strftime, pad2. rewrite <- !app_assoc. reflexivity.
Qed.

Lemma lstrip_nl_marker rest :
  lstrip (nl ++ lit "--- UNIVERSITY_START ---" ++ rest) =
  lit "--- UNIVERSITY_START ---" ++ rest.
Proof. reflexivity. Qed.

(** With such a time in it, stripping the header removes the line breaks
    at its two ends and nothing else. *)
Lemma strip_header_exact university_name domain t :
  (exists t0 c, t = t0 ++ [c] /\ is_space c = false) ->
  strip (header university_name domain t) =
  header_prefix university_name domain ++ t.
Proof.
  intros (t0 & c & -> & Hc).
  unfold header, strip. rewrite lstrip_nl_marker.
  unfold header_prefix.
  rewrite !app_assoc. rewrite <- (app_assoc _ [c] nl).
  change ([c] ++ nl) with (c :: nl).
  rewrite rstrip_app_nonspace by done.
  change (rstrip nl) with (@nil codepoint).
  reflexivity.
Qed.

Lemma failure_stub_time university_name domain t e :
  failure_stub university_name domain t e =
  header_prefix university_name domain ++ t
  ++ (nl ++ lit "STATUS: FAILED - " ++ exn_str e ++ nl).
Proof. unfold failure_stub, header_prefix. by rewrite <- !app_assoc. Qed.

(** Whether the [try] block returns or raises, what it raises and the
    report it returns do not depend on the time. *)
Lemma try_result_time university_name domain t1 t2 pr :
  match try_result university_name domain t1 pr,
        try_result university_name domain t2 pr with
  | inl x1, inl x2 =>
      exists s,
        x1 = (strip (header university_name domain t1) ++ nl) ++ s ++ nl
        /\ x2 = (strip (header university_name domain t2) ++ nl) ++ s ++ nl
  | inr e1, inr e2 => e1 = e2
  | _, _ => False
  end.
Proof.
  unfold try_result. destruct (report_of pr) as [v|e]; [|reflexivity].
  destruct v as [| | | |s| |];
    cbn [mbind res_bind py_str_add mret res_ret]; try reflexivity.
  exists s. split; symmetry; apply app_assoc.
Qed.

Section TwoCalls.

Variable E : env.
Variables max_retries initial_delay : Z.
Variables university_name domain t1 t2 : str.

Let req := build_request E university_name domain.
Let body1 :=
  attempt_body E max_retries initial_delay university_name domain t1.
Let body2 :=
  attempt_body E max_retries initial_delay university_name domain t2.

Hypothesis key_present : API_KEY E <> [].
Hypothesis delay_nonneg : 0 <= initial_delay.
Hypothesis t1_time : exists t0 c, t1 = t0 ++ [c] /\ is_space c = false.
Hypothesis t2_time : exists t0 c, t2 = t0 ++ [c] /\ is_space c = false.

(** One attempt answered alike in two worlds: both fall through, or both
    return, with the same events and texts that differ in the time only. *)
Lemma attempt_alike k wa wb :
  0 <= k ->
  transport E (w_posts wa) req = transport E (w_posts wb) req ->
  exists evs,
    (k < max_retries - 1
     /\ body1 k wa = (Returns Next, advance wa 1 evs)
     /\ body2 k wb = (Returns Next, advance wb 1 evs))
    \/ exists before after,
         body1 k wa = (Returns (Return (Some (before ++ t1 ++ after))),
                       advance wa 1 evs)
         /\ body2 k wb = (Returns (Return (Some (before ++ t2 ++ after))),
                          advance wb 1 evs).
Proof.
  intros Hk Hpr.
  pose proof (try_result_time university_name domain t1 t2
                (transport E (w_posts wa) req)) as Htime.
  destruct (try_result university_name domain t1
              (transport E (w_posts wa) req)) as [x1|e1] eqn:H1;
    destruct (try_result university_name domain t2
                (transport E (w_posts wa) req)) as [x2|e2] eqn:H2;
    try contradiction.
  - destruct Htime as (s & -> & ->). rewrite Hpr in H2.
    rewrite !strip_header_exact in H1, H2 by done.
    rewrite <- !app_assoc in H1, H2.
    eexists. right. exists (header_prefix university_name domain), (nl ++ s ++ nl).
    unfold body1, body2. split.
    + by apply attempt_success.
    + by apply attempt_success.
  - subst e2. rewrite Hpr in H2.
    destruct (is_RequestException e1) eqn:Hcls.
    + destruct (Z_lt_dec k (max_retries - 1)) as [Hlt|Hge].
      * eexists. left. split; [done|]. unfold body1, body2. split.
        -- apply (attempt_retry E max_retries initial_delay university_name
                    domain t1 key_present k wa e1 H1 Hcls Hlt).
           apply Z.mul_nonneg_nonneg; [done|]. apply Z.pow_nonneg. lia.
        -- apply (attempt_retry E max_retries initial_delay university_name
                    domain t2 key_present k wb e1 H2 Hcls Hlt).
           apply Z.mul_nonneg_nonneg; [done|]. apply Z.pow_nonneg. lia.
      * eexists. right. do 2 eexists. unfold body1, body2.
        rewrite <- !failure_stub_time. split.
        -- apply (attempt_exhausted E max_retries initial_delay
                    university_name domain t1 key_present k wa e1 H1 Hcls).
           lia.
        -- apply (attempt_exhausted E max_retries initial_delay
                    university_name domain t2 key_present k wb e1 H2 Hcls).
           lia.
    + eexists. right. do 2 eexists. unfold body1, body2.
      rewrite <- !failure_stub_time. split.
      * apply (attempt_unexpected E max_retries initial_delay
                 university_name domain t1 key_present k wa e1 H1 Hcls).
      * apply (attempt_unexpected E max_retries initial_delay
                 university_name domain t2 key_present k wb e1 H2 Hcls).
Qed.

Lemma for_each_alike n : forall k wa wb,
  0 <= k ->
  k + Z.of_nat (S n) = max_retries ->
  (forall i, (i <= n)%nat ->
     transport E (w_posts wa + i) req = transport E (w_posts wb + i) req) ->
  exists m evs before after,
    for_each body1 (seqZ k (Z.of_nat (S n))) wa =
      (Returns (Return (Some (before ++ t1 ++ after))), advance wa m evs)
    /\ for_each body2 (seqZ k (Z.of_nat (S n))) wb =
      (Returns (Return (Some (before ++ t2 ++ after))), advance wb m evs).
Proof.
  induction n as [|n IH]; intros k wa wb Hk Hend Hpr;
    rewrite seqZ_succ; cbn [for_each]; rewrite !run_bind;
    (destruct (attempt_alike k wa wb Hk) as [evs [(Hlt & -> & ->)|Hret]];
     [specialize (Hpr 0%nat ltac:(lia)); by rewrite !Nat.add_0_r in Hpr| |]).
  - lia.
  - destruct Hret as (before & after & -> & ->). by do 4 eexists.
  - destruct (IH (k + 1) (advance wa 1 evs) (advance wb 1 evs))
      as (m & evs' & before & after & -> & ->); [lia|lia| |].
    + intros i Hi. cbn [advance w_posts].
      replace (w_posts wa + 1 + i)%nat with (w_posts wa + S i)%nat by lia.
      replace (w_posts wb + 1 + i)%nat with (w_posts wb + S i)%nat by lia.
      apply Hpr. lia.
    + rewrite !advance_advance. by do 4 eexists.
  - destruct Hret as (before & after & -> & ->). by do 4 eexists.
Qed.

End TwoCalls.

(** C8.  Two calls with the same inputs, made in worlds where the remote
    end answers alike (the [i]-th POST of one call as the [i]-th of the
    other), cause the same events and return the same value apart from the
    time written in it. *)
Theorem same_outcome_apart_from_time E university_name domain w1 w2 :
  (forall i, (i < 5)%nat ->
     transport E (w_posts w1 + i) (build_request E university_name domain)
     = transport E (w_posts w2 + i) (build_request E university_name domain)) ->
  exists v1 v2 m evs,
    generate_transfer_data E university_name domain w1
      = (Returns v1, advance (tick w1) m evs)
    /\ generate_transfer_data E university_name domain w2
      = (Returns v2, advance (tick w2) m evs)
    /\ same_but_time (strftime (clock E (w_clock_reads w1)))
                     (strftime (clock E (w_clock_reads w2))) v1 v2.
Proof.
  intros Hpr. unfold generate_transfer_data.
  destruct (decide (API_KEY E = [])) as [Hkey|Hkey].
  - rewrite (generate_without_key E 5 1 university_name domain w1 Hkey)
      by lia.
    rewrite (generate_without_key E 5 1 university_name domain w2 Hkey)
      by lia.
    do 4 eexists. split; [reflexivity|]. split; [reflexivity|]. by left.
  - rewrite !generate_run.
    destruct (for_each_alike E 5 1 university_name domain
                (strftime (clock E (w_clock_reads w1)))
                (strftime (clock E (w_clock_reads w2)))
                Hkey ltac:(lia) (strftime_last _) (strftime_last _)
                4 0 (tick w1) (tick w2))
      as (m & evs & before & after & H1 & H2); [lia|lia| |].
    + intros i Hi. apply Hpr. lia.
    + change (Z.of_nat 5) with 5 in H1, H2. rewrite H1, H2.
      do 4 eexists. split; [reflexivity|]. split; [reflexivity|].
      right. by do 2 eexists.
Qed.

Lemma same_outcome_apart_from_time_witness :
  exists v1 v2 m evs,
    generate_transfer_data
        (Env (lit "key") (fun _ _ => http_200 (body_with_text (lit "X")))
             sample_clock (fun _ => None))
        (lit "Example University") (lit "www.example.edu") sample_world
      = (Returns v1, advance (tick sample_world) m evs)
    /\ generate_transfer_data
        (Env (lit "key") (fun _ _ => http_200 (body_with_text (lit "X")))
             sample_clock (fun _ => None))
        (lit "Example University") (lit "www.example.edu") (World 1 1 ∅ [])
      = (Returns v2, advance (tick (World 1 1 ∅ [])) m evs)
    /\ same_but_time (lit "2025-11-03 09:30:07") (lit "2025-11-03 09:30:08")
                     v1 v2.
Proof.
  apply (same_outcome_apart_from_time
           (Env (lit "key") (fun _ _ => http_200 (body_with_text (lit "X")))
                sample_clock (fun _ => None))
           (lit "Example University") (lit "www.example.edu")
           sample_world (World 1 1 ∅ [])).
  intros i _. reflexivity.
Defined.

(** ** Five request errors *)

Lemma failure_stub_nonempty university_name domain current_time e :
  exists c rest,
    failure_stub university_name domain current_time e = c :: rest.
Proof. unfold failure_stub. by do 2 eexists. Qed.

(** After five request errors the function returns the failure text of the
    last of them. *)
Lemma generate_exhausted E university_name domain w :
  API_KEY E <> [] ->
  (forall i, (i < 5)%nat ->
     request_error E (build_request E university_name domain) (w_posts w + i)) ->
  exists e w',
    generate_transfer_data E university_name domain w =
      (Returns (Some (failure_stub university_name domain
                        (strftime (clock E (w_clock_reads w))) e)), w')
    /\ w_fs w' = w_fs w.
Proof.
  intros Hkey Herr.
  destruct (Herr 4%nat ltac:(lia)) as (e & He & Hcls).
  exists e. eexists. split.
  - unfold generate_transfer_data.
    apply (generate_after_retries E 5 1 university_name domain 4);
      [done|lia|lia| |].
    + intros i Hi. apply Herr. lia.
    + apply (attempt_exhausted E 5 1 university_name domain _ Hkey);
        [|exact Hcls|lia].
      apply try_result_request_error. exact He.
  - reflexivity.
Qed.

(** ** More on sanitize_filename *)

Lemma replace_char_underscore d s :
  replace_char d (lit "_") s = map (fun c => if N.eqb c d then 95%N else c) s.
Proof.
  induction s as [|c s IH]; [done|].
  cbn [replace_char map]. rewrite IH. by destruct (N.eqb c d).
Qed.

Lemma clean_char_other c :
  c <> 60%N -> c <> 62%N -> c <> 58%N -> c <> 34%N -> c <> 47%N ->
  c <> 92%N -> c <> 124%N -> c <> 63%N -> c <> 42%N ->
  clean_char c = c.
Proof.
  intros. unfold clean_char. rewrite bool_decide_eq_false_2; [done|].
  unfold invalid_chars. intros Hc.
  repeat (apply elem_of_cons in Hc as [Hc|Hc]; [done|]).
  by apply elem_of_nil in Hc.
Qed.

(** The nine replacements, one after the other, are one pass over the
    string. *)
Lemma replacements_pointwise s :
  fold_left (fun filename char => replace_char char (lit "_") filename)
            invalid_chars s
  = map clean_char s.
Proof.
  unfold invalid_chars. cbn [fold_left].
  rewrite !replace_char_underscore, !map_map.
  apply map_ext. intros c.
  repeat match goal with
         | |- context [N.eqb c ?k] =>
             destruct (N.eqb_spec c k) as [->|?];
             [vm_compute; reflexivity | cbv iota]
         end.
  symmetry. by apply clean_char_other.
Qed.

Lemma strip_length s : (length (strip s) <= length s)%nat.
Proof.
  unfold strip.
  destruct (rstrip_prefix (lstrip s)) as [q Hq].
  destruct (lstrip_suffix s) as [p Hp].
  rewrite Hp at 2. rewrite Hq at 2. rewrite !length_app. lia.
Qed.

(** X1.  Each invalid character gives way to exactly one underscore, every other
    character is kept, and then the ends are trimmed: the result is never
    longer than the name. *)
Theorem sanitize_filename_pointwise s :
  sanitize_filename s = strip (map clean_char s)
  /\ (length (sanitize_filename s) <= length s)%nat.
Proof.
  unfold sanitize_filename. rewrite replacements_pointwise. split; [done|].
  etransitivity; [apply strip_length|]. by rewrite length_map.
Qed.

(** X2.  The names left as they are are exactly those without an invalid
    character and without whitespace at either end. *)
Theorem sanitize_filename_fixed s :
  sanitize_filename s = s
  <-> (forall c, c ∈ invalid_chars -> c ∉ s)
      /\ (forall c, head s = Some c -> is_space c = false)
      /\ (forall c, last s = Some c -> is_space c = false).
Proof.
  split.
  - intros Hs. split; [|split]; intros c; rewrite <- Hs.
    + apply sanitize_filename_clean.
    + unfold sanitize_filename. apply strip_head.
    + unfold sanitize_filename. apply strip_last.
  - intros (Hclean & Hhead & Hlast). unfold sanitize_filename.
    rewrite fold_fixed by done. by apply strip_fixed.
Qed.

(** X3.  Names that differ only in which invalid character, or underscore,
    stands at some place get the same file name: their files coincide. *)
Theorem sanitize_filename_collides a b c1 c2 :
  c1 ∈ 95%N :: invalid_chars ->
  c2 ∈ 95%N :: invalid_chars ->
  sanitize_filename (a ++ c1 :: b) = sanitize_filename (a ++ c2 :: b).
Proof.
  intros H1 H2.
  assert (Hclean : forall c, c ∈ 95%N :: invalid_chars -> clean_char c = 95%N).
  { intros c Hc. unfold clean_char. apply elem_of_cons in Hc as [->|Hc].
    - reflexivity.
    - by rewrite bool_decide_eq_true_2. }
  unfold sanitize_filename. rewrite !replacements_pointwise.
  rewrite !map_app. cbn [map]. by rewrite !Hclean.
Qed.

Lemma sanitize_filename_collides_witness :
  sanitize_filename (lit "Cal Poly" ++ 47%N :: lit "Pomona")
  = sanitize_filename (lit "Cal Poly" ++ 58%N :: lit "Pomona").
Proof.
  apply (sanitize_filename_collides (lit "Cal Poly") (lit "Pomona")
           47%N 58%N).
  - unfold invalid_chars. repeat constructor.
  - unfold invalid_chars. repeat constructor.
Defined.

(** ** Where the file goes *)

(** X4.  The file of a university lies directly in [colleges/]: the name part
    holds no slash and no backslash, whatever the university is called. *)
Theorem file_path_in_directory name :
  os_path_join COLLEGES_DIR (sanitize_filename name ++ lit ".txt")
  = lit "colleges/" ++ sanitize_filename name ++ lit ".txt"
  /\ (47%N ∉ sanitize_filename name ++ lit ".txt")
  /\ (92%N ∉ sanitize_filename name ++ lit ".txt").
Proof.
  assert (H47 : 47%N ∉ sanitize_filename name).
  { apply sanitize_filename_clean. unfold invalid_chars. repeat constructor. }
  assert (H92 : 92%N ∉ sanitize_filename name).
  { apply sanitize_filename_clean. unfold invalid_chars. repeat constructor. }
  assert (Htxt : forall c, c ∈ lit ".txt" -> c <> 47%N /\ c <> 92%N).
  { intros c Hc. change (lit ".txt") with [46; 116; 120; 116]%N in Hc.
    repeat (apply elem_of_cons in Hc as [->|Hc]; [done|]).
    by apply elem_of_nil in Hc. }
  split; [|split].
  - unfold os_path_join.
    assert (Hstart : startswith (lit "/")
                       (sanitize_filename name ++ lit ".txt") = false).
    { destruct (sanitize_filename name) as [|c s]; [reflexivity|].
      change (lit "/") with [47%N]. cbn [app startswith].
      destruct (N.eqb_spec 47 c) as [<-|?]; [|reflexivity].
      exfalso. apply H47. left. }
    rewrite Hstart. reflexivity.
  - intros [?|Hc]%elem_of_app; [done|]. by destruct (Htxt _ Hc).
  - intros [?|Hc]%elem_of_app; [done|]. by destruct (Htxt _ Hc).
Qed.

(** ** The domain of a URL *)

Section Split.

(** A separator that begins with a slash, as both separators of line 163
    do. *)
Variable sep' : str.
Let sep : str := 47%N :: sep'.

Lemma split_go_no_slash p : forall s cur,
  47%N ∉ p ->
  split_go sep (p ++ s) 0 cur = split_go sep s 0 (rev p ++ cur).
Proof.
  induction p as [|c p IH]; intros s cur Hp; [done|].
  apply not_elem_of_cons in Hp as [Hc Hp].
  cbn [app split_go]. unfold sep at 1. cbn [startswith].
  destruct (N.eqb_spec 47 c) as [?|_]; [done|]. cbn [andb].
  rewrite IH by done. cbn [rev]. by rewrite <- app_assoc.
Qed.

(** The first piece is what comes before the first separator. *)
Lemma split_go_head s : forall cur,
  exists pre suf,
    s = pre ++ suf
    /\ head (split_go sep s 0 cur) = Some (rev cur ++ pre)
    /\ (suf = [] \/ startswith sep suf = true).
Proof.
  induction s as [|c s IH]; intros cur.
  - exists [], []. cbn. rewrite app_nil_r. auto.
  - cbn [split_go]. destruct (startswith sep (c :: s)) eqn:Hstart.
    + exists [], (c :: s). cbn. rewrite app_nil_r. auto.
    + destruct (IH (c :: cur)) as (pre & suf & -> & Hhead & Hsuf).
      exists (c :: pre), suf. split; [done|]. split; [|done].
      rewrite Hhead. cbn [rev]. by rewrite <- app_assoc.
Qed.

Lemma split_go_nonempty s : forall skip cur,
  exists piece pieces, split_go sep s skip cur = piece :: pieces.
Proof.
  induction s as [|c s IH]; intros skip cur; [by do 2 eexists|].
  cbn [split_go]. destruct skip as [|k]; [|apply IH].
  destruct (startswith sep (c :: s)); [by do 2 eexists|apply IH].
Qed.

(** Without the separator in it, the string is the only piece. *)
Lemma split_go_absent s : forall cur,
  contains sep s = false -> split_go sep s 0 cur = [rev cur ++ s].
Proof.
  induction s as [|c s IH]; intros cur Hs.
  - cbn. by rewrite app_nil_r.
  - cbn [contains] in Hs. apply orb_false_iff in Hs as [Hstart Hs].
    cbn [split_go]. rewrite Hstart, IH by done.
    cbn [rev]. by rewrite <- app_assoc.
Qed.

(** With the separator in it, there are at least two pieces. *)
Lemma split_go_present s : forall cur,
  contains sep s = true ->
  exists first second pieces,
    split_go sep s 0 cur = first :: second :: pieces.
Proof.
  induction s as [|c s IH]; intros cur Hs; [discriminate Hs|].
  cbn [contains] in Hs. cbn [split_go].
  destruct (startswith sep (c :: s)).
  - destruct (split_go_nonempty s (length sep - 1) [])
      as (second & pieces & ->).
    by do 3 eexists.
  - apply IH. exact Hs.
Qed.

End Split.

Lemma split_go_double_slash s cur :
  split_go [47; 47]%N (47%N :: 47%N :: s) 0 cur
  = rev cur :: split_go [47; 47]%N s 0 [].
Proof. reflexivity. Qed.

Lemma lookup_1_cons (x : str) l : (x :: l) !! 1%nat = head l.
Proof. by destruct l. Qed.

Lemma lookup_0_head (l : list str) : l !! 0%nat = head l.
Proof. by destruct l. Qed.

(** X5.  For a URL [scheme//host] followed by nothing or by a path that starts
    with a slash, where neither [scheme] nor [host] holds a slash, line 163
    computes [host]. *)
Theorem domain_of_url scheme host tail :
  47%N ∉ scheme ->
  47%N ∉ host ->
  tail = [] \/ head tail = Some 47%N ->
  exists after_scheme,
    split (lit "//") (scheme ++ lit "//" ++ host ++ tail) !! 1%nat
      = Some after_scheme
    /\ split (lit "/") after_scheme !! 0%nat = Some host.
Proof.
  intros Hscheme Hhost Htail. unfold split.
  change (lit "//") with [47; 47]%N. change (lit "/") with [47%N].
  rewrite (split_go_no_slash [47%N]) by done. cbn [app].
  rewrite split_go_double_slash, lookup_1_cons.
  rewrite (split_go_no_slash [47%N]) by done.
  destruct (split_go_head [47%N] tail (rev host ++ []))
    as (pre & suf & Heq & Hhead & _).
  exists (rev (rev host ++ []) ++ pre). split; [exact Hhead|].
  rewrite app_nil_r, rev_involutive, lookup_0_head.
  rewrite (split_go_no_slash []) by done.
  destruct pre as [|c pre].
  - cbn. by rewrite app_nil_r, rev_involutive.
  - subst tail. destruct Htail as [Htail|Htail]; [discriminate Htail|].
    cbn in Htail. injection Htail as ->.
    cbn. by rewrite app_nil_r, rev_involutive.
Qed.

Lemma domain_of_url_witness :
  exists after_scheme,
    split (lit "//")
      (lit "https:" ++ lit "//" ++ lit "www.example.edu"
       ++ lit "/admissions/transfer") !! 1%nat
      = Some after_scheme
    /\ split (lit "/") after_scheme !! 0%nat = Some (lit "www.example.edu").
Proof.
  apply (domain_of_url (lit "https:") (lit "www.example.edu")
           (lit "/admissions/transfer")).
  - vm_compute. intros H.
    repeat (apply elem_of_cons in H as [H|H]; [discriminate H|]).
    by apply elem_of_nil in H.
  - vm_compute. intros H.
    repeat (apply elem_of_cons in H as [H|H]; [discriminate H|]).
    by apply elem_of_nil in H.
  - right. reflexivity.
Defined.

(** X6.  A record whose URL holds no [//] stops the run: line 163 raises
    [IndexError] before anything is printed or sent for it, nothing catches
    it, and the records after it are never reached. *)
Theorem url_without_scheme_aborts E H total total_processed uni w :
  contains (lit "//") (url uni) = false ->
  process_university E H total total_processed uni w
    = (Raises (Exn IndexError (lit "list index out of range")), w)
  /\ forall rest,
       university_loop E H total total_processed (uni :: rest) w
       = (Raises (Exn IndexError (lit "list index out of range")), w).
Proof.
  intros Hurl.
  assert (Hrun : process_university E H total total_processed uni w
                 = (Raises (Exn IndexError (lit "list index out of range")), w)).
  { unfold process_university, list_item, split.
    change (lit "//") with (47%N :: [47%N]) in *.
    rewrite (split_go_absent [47%N]) by done. reflexivity. }
  split; [exact Hrun|].
  intros rest. cbn [university_loop]. by rewrite run_bind, Hrun.
Qed.

Lemma url_without_scheme_aborts_witness :
  process_university (sample_env (lit "key") (fun _ => http_500)) sample_host
      2 0
      (University (lit "Example University") (lit "www.example.edu"))
      sample_world
    = (Raises (Exn IndexError (lit "list index out of range")), sample_world)
  /\ forall rest,
       university_loop (sample_env (lit "key") (fun _ => http_500)) sample_host
         2 0
         (University (lit "Example University") (lit "www.example.edu")
          :: rest) sample_world
       = (Raises (Exn IndexError (lit "list index out of range")),
          sample_world).
Proof.
  apply (url_without_scheme_aborts
           (sample_env (lit "key") (fun _ => http_500)) sample_host 2 0
           (University (lit "Example University") (lit "www.example.edu"))
           sample_world).
  reflexivity.
Defined.

(** ** The ceiling on attempts *)

Section Ceiling.

Variable E : env.
Variables max_retries initial_delay : Z.
Variables university_name domain current_time : str.

Let req := build_request E university_name domain.
Let body :=
  attempt_body E max_retries initial_delay university_name domain current_time.
Let retries := retry_trace E max_retries initial_delay university_name domain.

Hypothesis key_present : API_KEY E <> [].
Hypothesis delay_nonneg : 0 <= initial_delay.

(** Whatever the answers are, the passes from [k] on are some retried
    attempts followed by one attempt that returns, and the indices are not
    used up before that. *)
Lemma for_each_ceiling n : forall k w,
  0 <= k ->
  k + Z.of_nat (S n) = max_retries ->
  exists (j : nat) s tail,
    (j <= n)%nat
    /\ for_each body (seqZ k (Z.of_nat (S n))) w =
       (Returns (Return (Some s)),
        advance w (S j) (retries k j ++ EvPost req :: tail))
    /\ (tail = [] \/ exists line, tail = [EvPrint line]).
Proof.
  induction n as [|n IH]; intros k w Hk Hend;
    rewrite seqZ_succ; cbn [for_each]; rewrite run_bind; unfold body at 1;
    destruct (try_result university_name domain current_time
                (transport E (w_posts w) req)) as [text|e] eqn:Htry.
  - rewrite (attempt_success E max_retries initial_delay university_name
               domain current_time key_present k w text Htry).
    exists 0%nat, text, []. split; [lia|]. split; [reflexivity|by left].
  - destruct (is_RequestException e) eqn:Hcls.
    + rewrite (attempt_exhausted E max_retries initial_delay university_name
                 domain current_time key_present k w e Htry Hcls); [|lia].
      exists 0%nat. do 2 eexists. split; [lia|]. split; [reflexivity|].
      right. by eexists.
    + rewrite (attempt_unexpected E max_retries initial_delay university_name
                 domain current_time key_present k w e Htry Hcls).
      exists 0%nat. do 2 eexists. split; [lia|]. split; [reflexivity|].
      right. by eexists.
  - rewrite (attempt_success E max_retries initial_delay university_name
               domain current_time key_present k w text Htry).
    exists 0%nat, text, []. split; [lia|]. split; [reflexivity|by left].
  - destruct (is_RequestException e) eqn:Hcls.
    + rewrite (attempt_retry E max_retries initial_delay university_name
                 domain current_time key_present k w e Htry Hcls); [|lia|].
      * destruct (IH (k + 1)
                     (advance w 1
                        [EvPost req;
                         EvPrint (retry_line max_retries domain k
                                    (initial_delay * 2 ^ k));
                         EvSleep (initial_delay * 2 ^ k)]))
          as (j & s & tail & Hj & Hrun & Htail); [lia|lia|].
        exists (S j), s, tail. split; [lia|]. split; [|exact Htail].
        etransitivity; [exact Hrun|]. rewrite advance_advance. reflexivity.
      * apply Z.mul_nonneg_nonneg; [done|]. apply Z.pow_nonneg. lia.
    + rewrite (attempt_unexpected E max_retries initial_delay university_name
                 domain current_time key_present k w e Htry Hcls).
      exists 0%nat. do 2 eexists. split; [lia|]. split; [reflexivity|].
      right. by eexists.
Qed.

End Ceiling.

Lemma sum_backoff d n : forall k,
  0 <= k ->
  foldr Z.add 0 (backoff d k n) = d * 2 ^ k * (2 ^ Z.of_nat n - 1).
Proof.
  induction n as [|n IH]; intros k Hk.
  - unfold backoff. change (seqZ k (Z.of_nat 0)) with (@nil Z).
    cbn [fmap list_fmap foldr Z.of_nat]. rewrite Z.pow_0_r. ring.
  - unfold backoff in *. rewrite seqZ_succ. cbn [fmap list_fmap foldr].
    rewrite IH by lia.
    rewrite Nat2Z.inj_succ, !Z.pow_succ_r by lia.
    replace (k + 1) with (Z.succ k) by lia. rewrite Z.pow_succ_r by lia.
    ring.
Qed.

(** The events of a call with a key: [k] retried attempts and one more. *)
Lemma generate_ceiling E (N d : Z) university_name domain w :
  API_KEY E <> [] ->
  1 <= N ->
  0 <= d ->
  exists (k : nat) text tail,
    Z.of_nat k < N
    /\ generate_transfer_data_with E N d university_name domain w =
       (Returns (Some text),
        advance (tick w) (S k)
          (retry_trace E N d university_name domain 0 k
           ++ EvPost (build_request E university_name domain) :: tail))
    /\ (tail = [] \/ exists line, tail = [EvPrint line]).
Proof.
  intros Hkey HN Hd. rewrite generate_run.
  destruct (for_each_ceiling E N d university_name domain
              (strftime (clock E (w_clock_reads w))) Hkey Hd
              (Z.to_nat (N - 1)) 0 (tick w))
    as (j & s & tail & Hj & Hrun & Htail); [lia|lia|].
  replace (Z.of_nat (S (Z.to_nat (N - 1)))) with N in Hrun by lia.
  rewrite Hrun. exists j, s, tail. split; [lia|]. by split.
Qed.




(** ** The report and the text field *)

(** X9.  With a key configured, if the first [k] POSTs end in request errors
    and the answer to attempt [k] carries a string [T] as [report_text],
    the function returns the three header lines with the time of the call,
    then [T], then one line break, and nothing else. *)
Theorem report_format E (N d : Z) university_name domain w (k : nat) T :
  API_KEY E <> [] ->
  0 <= d ->
  Z.of_nat k < N ->
  (forall i, (i < k)%nat ->
     request_error E (build_request E university_name domain) (w_posts w + i)) ->
  report_of (transport E (w_posts w + k)
               (build_request E university_name domain))
    = inl (JString T) ->
  exists w',
    generate_transfer_data_with E N d university_name domain w =
    (Returns (Some (lit "--- UNIVERSITY_START ---" ++ nl
                    ++ lit "NAME: " ++ university_name ++ nl
                    ++ lit "DOMAIN: " ++ domain ++ nl
                    ++ lit "REPORT_DATE: "
                    ++ strftime (clock E (w_clock_reads w)) ++ nl
                    ++ T ++ nl)), w').
Proof.
  intros Hkey Hd Hk Herr Hreport. eexists.
  apply (generate_after_retries E N d university_name domain k);
    [done|done|lia|done|].
  apply (attempt_success E N d university_name domain _ Hkey).
  cbn [advance tick w_posts]. unfold try_result. rewrite Hreport.
  cbn [mbind res_bind py_str_add mret res_ret].
  rewrite strip_header_exact by apply strftime_last.
  unfold header_prefix. rewrite <- !app_assoc. reflexivity.
Qed.

Lemma report_format_witness :
  exists w',
    generate_transfer_data_with
      (sample_env (lit "key") (fun _ => http_200 (body_with_text (lit "X"))))
      5 1 (lit "Example University") (lit "www.example.edu") sample_world =
    (Returns (Some (lit "--- UNIVERSITY_START ---" ++ nl
                    ++ lit "NAME: " ++ lit "Example University" ++ nl
                    ++ lit "DOMAIN: " ++ lit "www.example.edu" ++ nl
                    ++ lit "REPORT_DATE: "
                    ++ strftime (clock (sample_env (lit "key")
                                   (fun _ => http_200 (body_with_text (lit "X"))))
                                   (w_clock_reads sample_world)) ++ nl
                    ++ lit "X" ++ nl)), w').
Proof.
  apply (report_format
           (sample_env (lit "key")
              (fun _ => http_200 (body_with_text (lit "X"))))
           5 1 (lit "Example University") (lit "www.example.edu")
           sample_world 0 (lit "X")).
  - vm_compute. discriminate.
  - lia.
  - lia.
  - intros i Hi. lia.
  - vm_compute. reflexivity.
Defined.

(** X10.  A [text] field that is not a string (a number, [null], a list, ...)
    makes the concatenation of line 126 raise [TypeError]: the call returns
    the failure text at once and the answer is not retried. *)
Theorem text_not_a_string_fails E (N d : Z) university_name domain w
    (k : nat) v :
  API_KEY E <> [] ->
  0 <= d ->
  Z.of_nat k < N ->
  (forall i, (i < k)%nat ->
     request_error E (build_request E university_name domain) (w_posts w + i)) ->
  report_of (transport E (w_posts w + k)
               (build_request E university_name domain))
    = inl v ->
  (forall s, v <> JString s) ->
  exists evs,
    generate_transfer_data_with E N d university_name domain w =
    (Returns (Some (failure_stub university_name domain
                      (strftime (clock E (w_clock_reads w)))
                      (Exn TypeError
                         (lit "can only concatenate str (not " ++ dquote
                          ++ type_name v ++ dquote ++ lit ") to str")))),
     advance (tick w) (S k) evs)
    /\ attempts evs = S k.
Proof.
  intros Hkey Hd Hk Herr Hreport Hv. eexists. split.
  - apply (generate_after_retries E N d university_name domain k);
      [done|done|lia|done|].
    rewrite (attempt_unexpected E N d university_name domain _ Hkey _ _
               (Exn TypeError
                  (lit "can only concatenate str (not " ++ dquote
                   ++ type_name v ++ dquote ++ lit ") to str"))).
    + rewrite advance_advance. do 3 f_equal. lia.
    + cbn [advance tick w_posts]. unfold try_result. rewrite Hreport.
      cbn [mbind res_bind].
      destruct v; try reflexivity. by destruct (Hv s).
    + reflexivity.
  - rewrite attempts_app, attempts_retry_trace. cbn. lia.
Qed.

Lemma text_not_a_string_fails_witness :
  exists evs,
    generate_transfer_data_with
      (sample_env (lit "key")
         (fun _ => http_200
                     (JObject [(lit "candidates",
                        JArray [JObject [(lit "content",
                          JObject [(lit "parts",
                            JArray [JObject [(lit "text", JInt 5)]])])]])])))
      5 1 (lit "Example University") (lit "www.example.edu") sample_world =
    (Returns (Some (failure_stub (lit "Example University")
                      (lit "www.example.edu")
                      (strftime sample_time)
                      (Exn TypeError
                         (lit "can only concatenate str (not " ++ dquote
                          ++ type_name (JInt 5) ++ dquote ++ lit ") to str")))),
     advance (tick sample_world) 1 evs)
    /\ attempts evs = 1%nat.
Proof.
  apply (text_not_a_string_fails
           (sample_env (lit "key")
              (fun _ => http_200
                          (JObject [(lit "candidates",
                             JArray [JObject [(lit "content",
                               JObject [(lit "parts",
                                 JArray [JObject [(lit "text", JInt 5)]])])]])])))
           5 1 (lit "Example University") (lit "www.example.edu")
           sample_world 0 (JInt 5)).
  - vm_compute. discriminate.
  - lia.
  - lia.
  - intros i Hi. lia.
  - vm_compute. reflexivity.
  - intros s. discriminate.
Defined.

(** X11.  [extract_report_text] takes the [text] of the first part of the first
    candidate: further candidates and parts, and the other keys, play no
    role. *)
Theorem extract_first_text top candidate more_candidates content part
    more_parts v :
  dict_lookup (lit "candidates") top
    = Some (JArray (JObject candidate :: more_candidates)) ->
  dict_lookup (lit "content") candidate = Some (JObject content) ->
  dict_lookup (lit "parts") content
    = Some (JArray (JObject part :: more_parts)) ->
  dict_lookup (lit "text") part = Some v ->
  extract_report_text (JObject top) = inl v.
Proof.
  intros Hcandidates Hcontent Hparts Htext. unfold extract_report_text.
  cbn [py_get]. rewrite Hcandidates.
  cbn [default from_option id mbind res_bind py_item0 py_get].
  rewrite Hcontent. cbn [default from_option id mbind res_bind py_item0 py_get].
  rewrite Hparts. cbn [default from_option id mbind res_bind py_item0 py_get].
  rewrite Htext. reflexivity.
Qed.

Lemma extract_first_text_witness :
  extract_report_text (body_with_text (lit "X")) = inl (JString (lit "X")).
Proof.
  apply (extract_first_text _
           [(lit "content",
             JObject [(lit "parts",
               JArray [JObject [(lit "text", JString (lit "X"))]])])]
           []
           [(lit "parts", JArray [JObject [(lit "text", JString (lit "X"))]])]
           [(lit "text", JString (lit "X"))] []);
    vm_compute; reflexivity.
Defined.

(** X12.  When one of the keys [candidates], [content], [parts], [text] is absent
    where it is looked up, and what lies above it has the expected shape,
    the placeholder is the result. *)
Theorem extract_placeholder top :
  dict_lookup (lit "candidates") top = None
  \/ (exists candidate more_candidates,
        dict_lookup (lit "candidates") top
          = Some (JArray (JObject candidate :: more_candidates))
        /\ (dict_lookup (lit "content") candidate = None
            \/ exists content,
                 dict_lookup (lit "content") candidate = Some (JObject content)
                 /\ (dict_lookup (lit "parts") content = None
                     \/ exists part more_parts,
                          dict_lookup (lit "parts") content
                            = Some (JArray (JObject part :: more_parts))
                          /\ dict_lookup (lit "text") part = None))) ->
  extract_report_text (JObject top) = inl (JString fallback_text).
Proof.
  unfold extract_report_text. cbn [py_get].
  intros [H1|(candidate & more_candidates & H1 & H2)];
    rewrite H1; cbn [default from_option id mbind res_bind py_item0 py_get].
  { reflexivity. }
  destruct H2 as [H2|(content & H2 & H3)];
    rewrite H2; cbn [default from_option id mbind res_bind py_item0 py_get].
  { reflexivity. }
  destruct H3 as [H3|(part & more_parts & H3 & H4)];
    rewrite H3; cbn [default from_option id mbind res_bind py_item0 py_get].
  { reflexivity. }
  rewrite H4. reflexivity.
Qed.

Lemma extract_placeholder_witness :
  extract_report_text
    (JObject [(lit "candidates",
               JArray [JObject [(lit "finishReason", JString (lit "SAFETY"))]])])
  = inl (JString fallback_text).
Proof.
  apply (extract_placeholder
           [(lit "candidates",
             JArray [JObject [(lit "finishReason",
                               JString (lit "SAFETY"))]])]).
  right. exists [(lit "finishReason", JString (lit "SAFETY"))], [].
  split; [vm_compute; reflexivity|]. left. vm_compute. reflexivity.
Defined.

(** ** One record of the loop *)

Lemma world_eta w :
  World (w_posts w) (w_clock_reads w) (w_fs w) (w_trace w) = w.
Proof. by destruct w. Qed.

Lemma returns_some_eq {A : Type} (a b : A) (w w' : world) :
  (Returns (Some a), w) = (Returns (Some b), w') -> a = b /\ w = w'.
Proof. intros H. by injection H. Qed.

Lemma returns_eq {A : Type} (a b : A) (w w' : world) :
  (Returns a, w) = (Returns b, w') -> a = b /\ w = w'.
Proof. intros H. by injection H. Qed.

Lemma header_prefix_cons university_name domain :
  exists rest, header_prefix university_name domain = 45%N :: rest.
Proof. unfold header_prefix. by eexists. Qed.

(** A call as the caller sees it: what it returns, how many POSTs it
    makes, and that its sleeps are backoff sleeps. *)
Lemma generate_summary E university_name domain w :
  exists v (m k : nat) evs,
    generate_transfer_data E university_name domain w =
      (Returns v, advance (tick w) m evs)
    /\ attempts evs = m
    /\ (m <= 5)%nat
    /\ (k <= 4)%nat
    /\ sleeps evs = backoff 1 0 k
    /\ (API_KEY E = [] -> v = None /\ m = 0%nat)
    /\ (API_KEY E <> [] ->
        exists rest, v = Some (lit "--- UNIVERSITY_START ---" ++ rest)).
Proof.
  unfold generate_transfer_data.
  destruct (decide (API_KEY E = [])) as [Hkey|Hkey].
  - rewrite (generate_without_key E 5 1 university_name domain w Hkey) by lia.
    exists None, 0%nat, 0%nat. eexists. split; [reflexivity|].
    repeat split; try done; lia.
  - destruct (generate_ceiling E 5 1 university_name domain w Hkey)
      as (k & text & tail & Hk & Hrun & Htail); [lia|lia|].
    destruct (generate_outcome E 5 1 university_name domain w)
      as [[Hno _]|(_ & rest & w' & Hout)]; [lia|lia|done|].
    rewrite Hrun in Hout. apply returns_some_eq in Hout as [-> _].
    rewrite Hrun. exists (Some (lit "--- UNIVERSITY_START ---" ++ rest)).
    exists (S k), k. eexists. split; [reflexivity|].
    split; [|split; [lia|split; [lia|split; [|split]]]].
    + rewrite attempts_app, attempts_retry_trace.
      destruct Htail as [->|[line ->]]; cbn; lia.
    + rewrite sleeps_app, sleeps_retry_trace.
      destruct Htail as [->|[line ->]]; cbn; by rewrite app_nil_r.
    + done.
    + intros _. by eexists.
Qed.

(** A URL with [//] in it yields a domain. *)
Lemma url_has_domain u :
  contains (lit "//") u = true ->
  exists after_scheme domain,
    split (lit "//") u !! 1%nat = Some after_scheme
    /\ split (lit "/") after_scheme !! 0%nat = Some domain.
Proof.
  intros Hu. unfold split.
  change (lit "//") with (47%N :: [47%N]) in *.
  change (lit "/") with (47%N :: []).
  destruct (split_go_present [47%N] u [] Hu) as (first & second & pieces & ->).
  destruct (split_go_nonempty [] second 0 []) as (domain & others & Hd).
  exists second, domain. split; [reflexivity|].
  exact (f_equal (fun l : list str => l !! 0%nat) Hd).
Qed.

(** A line that the terminal takes, and one that it refuses. *)
Lemma print_run H line w :
  stdout_fault H line = None ->
  print H line w =
  (Returns (),
   World (w_posts w) (w_clock_reads w) (w_fs w) (w_trace w ++ [EvPrint line])).
Proof. intros Hline. unfold print. by rewrite Hline. Qed.

Lemma print_refused H line e w :
  stdout_fault H line = Some e -> print H line w = (Raises e, w).
Proof. intros Hline. unfold print. by rewrite Hline. Qed.

Section Record.

Variable E : env.
Variable H : host.
Variable total : Z.

(** The terminal takes every line. *)
Hypothesis stdout_ok : forall line, stdout_fault H line = None.

(** Saving prints some lines and leaves of the file what [open] and
    [f.write] make of it; it does nothing else and, on such a terminal,
    does not raise. *)
Lemma save_data_block_events name text w :
  exists lines,
    save_data_block E H name text w =
    (Returns (),
     World (w_posts w) (w_clock_reads w)
           (files_after_save E H name text (w_fs w))
           (w_trace w ++ map EvPrint lines)).
Proof.
  destruct w as [p c fs tr].
  unfold save_data_block, files_after_save. fold (file_path name).
  unfold os_path_exists, try_except, write_file.
  cbv [mbind M_bind mret M_ret w_posts w_clock_reads w_fs w_trace].
  assert (Hhandled : forall e fs' tr',
    exists lines,
      dispatch
        [ (is_PermissionError, fun e =>
             print H (cross_mark ++ lit " Error: No permission to write to "
                      ++ file_path name ++ lit ": " ++ exn_str e));
          (is_IOError, fun e =>
             print H (cross_mark ++ lit " Error saving data for " ++ name
                      ++ lit ": " ++ exn_str e));
          (is_Exception, fun e =>
             print H (cross_mark
                      ++ lit " Unexpected error while saving data for "
                      ++ name ++ lit ": " ++ exn_str e)) ] e
        (World p c fs' tr')
      = (Returns (), World p c fs' (tr' ++ map EvPrint lines))).
  { intros e fs' tr'. cbn [dispatch].
    destruct (is_PermissionError e);
      [|destruct (is_IOError e); [|cbn [is_Exception]]];
      rewrite print_run by apply stdout_ok; by eexists [_]. }
  destruct (bool_decide (is_Some (fs !! file_path name))).
  - rewrite print_run by apply stdout_ok.
    cbn [w_posts w_clock_reads w_fs w_trace].
    destruct (open_fault E (file_path name)) as [e|].
    + cbv beta iota zeta. destruct (Hhandled e fs (tr ++ [EvPrint (warning_sign
                  ++ lit "  Warning: File already exists for " ++ name
                  ++ lit ", overwriting...")])) as [lines ->].
      eexists (_ :: lines). by rewrite <- app_assoc.
    + destruct (utf8_encodable text);
        [destruct (write_fault H (file_path name) text) as [[e remains]|]|].
      * cbv beta iota zeta. destruct (Hhandled e (<[file_path name := remains]> fs)
                    (tr ++ [EvPrint (warning_sign
                      ++ lit "  Warning: File already exists for " ++ name
                      ++ lit ", overwriting...")])) as [lines ->].
        eexists (_ :: lines). by rewrite <- app_assoc.
      * rewrite print_run by apply stdout_ok.
        eexists [_; _]. cbn [w_posts w_clock_reads w_fs w_trace map].
        by rewrite <- app_assoc.
      * cbv beta iota zeta. destruct (Hhandled (encode_error text) (<[file_path name := ([] : str)]> fs)
                    (tr ++ [EvPrint (warning_sign
                      ++ lit "  Warning: File already exists for " ++ name
                      ++ lit ", overwriting...")])) as [lines ->].
        eexists (_ :: lines). by rewrite <- app_assoc.
  - destruct (open_fault E (file_path name)) as [e|].
    + cbv beta iota zeta. destruct (Hhandled e fs tr) as [lines ->]. by exists lines.
    + destruct (utf8_encodable text);
        [destruct (write_fault H (file_path name) text) as [[e remains]|]|].
      * cbv beta iota zeta. destruct (Hhandled e (<[file_path name := remains]> fs) tr)
          as [lines ->]. by exists lines.
      * rewrite print_run by apply stdout_ok. by eexists [_].
      * cbv beta iota zeta. destruct (Hhandled (encode_error text) (<[file_path name := ([] : str)]> fs)
                    tr) as [lines ->]. by exists lines.
Qed.

Lemma pause_run total_processed w :
  (if total_processed <? total then
     print H (lit "Pausing for " ++ str_of_int POLITENESS_DELAY_SECONDS
              ++ lit " seconds...");;
     time_sleep POLITENESS_DELAY_SECONDS
   else mret ()) w =
  (Returns (),
   World (w_posts w) (w_clock_reads w) (w_fs w)
         (w_trace w ++ pause_events total total_processed)).
Proof.
  unfold pause_events, pause. destruct (total_processed <? total).
  - rewrite run_bind, print_run by apply stdout_ok. unfold time_sleep.
    change (POLITENESS_DELAY_SECONDS <? 0) with false. unfold emit.
    cbv beta iota.
    cbn [w_posts w_clock_reads w_fs w_trace].
    by rewrite <- app_assoc.
  - by rewrite app_nil_r, world_eta.
Qed.

(** One pass of the loop over a record whose URL yields a domain: the call,
    what is saved, and every event. *)
Lemma process_university_run total_processed uni w after_scheme domain :
  split (lit "//") (url uni) !! 1%nat = Some after_scheme ->
  split (lit "/") after_scheme !! 0%nat = Some domain ->
  exists v (m k : nat) gen_evs lines,
    generate_transfer_data E (college_name uni) domain
      (World (w_posts w) (w_clock_reads w) (w_fs w)
         (w_trace w
          ++ [EvPrint (processing_line total total_processed
                         (college_name uni) domain)]))
    = (Returns v,
       World (w_posts w + m) (S (w_clock_reads w)) (w_fs w)
         ((w_trace w
           ++ [EvPrint (processing_line total total_processed
                          (college_name uni) domain)])
          ++ gen_evs))
    /\ attempts gen_evs = m
    /\ (m <= 5)%nat
    /\ (k <= 4)%nat
    /\ sleeps gen_evs = backoff 1 0 k
    /\ (API_KEY E = [] -> v = None /\ m = 0%nat)
    /\ (API_KEY E <> [] ->
        exists rest, v = Some (lit "--- UNIVERSITY_START ---" ++ rest))
    /\ process_university E H total total_processed uni w =
       (Returns (total_processed + 1),
        World (w_posts w + m) (S (w_clock_reads w))
          (match v with
           | Some (c :: text) =>
               files_after_save E H (college_name uni) (c :: text) (w_fs w)
           | _ => w_fs w
           end)
          (w_trace w
           ++ [EvPrint (processing_line total total_processed
                          (college_name uni) domain)]
           ++ gen_evs
           ++ map EvPrint (match v with Some (_ :: _) => lines | _ => [] end)
           ++ pause_events total (total_processed + 1))).
Proof.
  intros Hscheme Hdomain.
  set (P := EvPrint (processing_line total total_processed
                       (college_name uni) domain)).
  set (w0 := World (w_posts w) (w_clock_reads w) (w_fs w) (w_trace w ++ [P])).
  destruct (generate_summary E (college_name uni) domain w0)
    as (v & m & k & gen_evs & Hgen & Hatt & Hm & Hk & Hsl & Hno & Hyes).
  destruct v as [[|c text]|];
    [ exists (Some []), m, k, gen_evs, []
    | destruct (save_data_block_events (college_name uni) (c :: text)
                  (advance (tick w0) m gen_evs)) as [lines Hlines];
      exists (Some (c :: text)), m, k, gen_evs, lines
    | exists None, m, k, gen_evs, [] ];
    (split; [exact Hgen|]); do 6 (split; [done|]);
    unfold process_university, list_item;
    rewrite run_bind, Hscheme; cbn [mret M_ret];
    rewrite run_bind, Hdomain; cbn [mret M_ret];
    rewrite run_bind, print_run by apply stdout_ok;
    fold (processing_line total total_processed (college_name uni) domain);
    fold P; fold w0;
    rewrite run_bind, Hgen; cbv beta iota;
    rewrite run_bind, ?Hlines; cbn [mret M_ret]; cbv beta iota;
    rewrite run_bind, pause_run; cbv beta iota;
    unfold w0;
    cbn [mret M_ret advance tick w_posts w_clock_reads w_fs w_trace map];
    by rewrite <- !app_assoc, ?app_nil_r.
Qed.

End Record.

(** ** What a record leaves behind *)








(** ** The whole loop *)

Lemma count_sleeps_app d tr tr' :
  count_sleeps d (tr ++ tr') = (count_sleeps d tr + count_sleeps d tr')%nat.
Proof.
  unfold count_sleeps. by rewrite sleeps_app, filter_app, length_app.
Qed.

Lemma sleeps_prints lines : sleeps (map EvPrint lines) = [].
Proof. induction lines as [|line lines IH]; [done|exact IH]. Qed.

Lemma attempts_prints lines : attempts (map EvPrint lines) = 0%nat.
Proof.
  unfold attempts, posts.
  induction lines as [|line lines IH]; [done|exact IH].
Qed.

Lemma count_sleeps_pause total total_processed :
  count_sleeps 3 (pause_events total total_processed)
  = if total_processed <? total then 1%nat else 0%nat.
Proof. unfold pause_events. by destruct (total_processed <? total). Qed.

Lemma attempts_pause total total_processed :
  attempts (pause_events total total_processed) = 0%nat.
Proof. unfold pause_events. by destruct (total_processed <? total). Qed.

(** A backoff sleep of the source lasts 1, 2, 4 or 8 seconds, never 3. *)
Lemma count_sleeps_backoff (k : nat) tr :
  (k <= 4)%nat -> sleeps tr = backoff 1 0 k -> count_sleeps 3 tr = 0%nat.
Proof.
  intros Hk Hs. unfold count_sleeps. rewrite Hs.
  destruct k as [|[|[|[|[|k]]]]]; [reflexivity ..|lia].
Qed.

Lemma join_with_cons between segment next rest :
  join_with between (segment :: next :: rest)
  = segment ++ between ++ join_with between (next :: rest).
Proof. reflexivity. Qed.

(** Segments without a sleep of three seconds, joined by pauses: one such
    sleep for each segment but the last. *)
Lemma count_sleeps_join segments :
  Forall (fun segment => count_sleeps 3 segment = 0%nat) segments ->
  count_sleeps 3 (join_with pause segments) = (length segments - 1)%nat.
Proof.
  induction segments as [|segment [|next rest] IH]; intros Hall.
  - reflexivity.
  - apply Forall_cons in Hall as [Hseg _]. exact Hseg.
  - apply Forall_cons in Hall as [Hseg Hall].
    rewrite join_with_cons, !count_sleeps_app, Hseg, (IH Hall).
    cbn [length]. change (count_sleeps 3 pause) with 1%nat. lia.
Qed.

Lemma attempts_join segments :
  Forall (fun segment => (attempts segment <= 5)%nat) segments ->
  (attempts (join_with pause segments) <= 5 * length segments)%nat.
Proof.
  induction segments as [|segment [|next rest] IH]; intros Hall.
  - cbn. lia.
  - apply Forall_cons in Hall as [Hseg _]. cbn [join_with length]. lia.
  - apply Forall_cons in Hall as [Hseg Hall].
    rewrite join_with_cons, !attempts_app.
    change (attempts pause) with 0%nat.
    specialize (IH Hall). cbn [length] in *. lia.
Qed.

Section Loop.

Variable E : env.
Variable H : host.
Variable total : Z.

(** The terminal takes every line. *)
Hypothesis stdout_ok : forall line, stdout_fault H line = None.

(** Every record with a usable URL is taken up in turn, whatever the
    remote end and the file system do. *)
Lemma university_loop_run unis : forall total_processed w,
  Forall (fun uni => contains (lit "//") (url uni) = true) unis ->
  exists w' evs,
    university_loop E H total total_processed unis w
      = (Returns (total_processed + Z.of_nat (length unis)), w')
    /\ w_trace w' = w_trace w ++ evs
    /\ w_posts w' = (w_posts w + attempts evs)%nat
    /\ (attempts evs <= 5 * length unis)%nat
    /\ w_clock_reads w' = (w_clock_reads w + length unis)%nat
    /\ count_sleeps 3 evs = count_pauses total total_processed (length unis).
Proof.
  induction unis as [|uni unis IH]; intros total_processed w Hurls.
  - exists w, []. cbn. rewrite app_nil_r, Z.add_0_r.
    repeat split; try done; lia.
  - apply Forall_cons in Hurls as [Hurl Hurls].
    destruct (url_has_domain (url uni) Hurl)
      as (after_scheme & domain & Hscheme & Hdomain).
    destruct (process_university_run E H total stdout_ok total_processed uni
                w after_scheme domain Hscheme Hdomain)
      as (v & m & k & gen_evs & lines & _ & Hatt & Hm & Hk & Hsl & _ & _
          & Hrun).
    cbn [university_loop]. rewrite run_bind, Hrun.
    match goal with
    | |- context [university_loop E H total (total_processed + 1) unis ?w1] =>
        destruct (IH (total_processed + 1) w1 Hurls)
          as (w' & evs & Hloop & Htr & Hposts & Hbound & Hclock & Hcount)
    end.
    rewrite Hloop. cbn [w_trace w_posts w_clock_reads] in Htr, Hposts, Hclock.
    exists w'. eexists. split; [|split; [|split; [|split; [|split]]]].
    + f_equal. f_equal. cbn [length]. lia.
    + rewrite Htr. rewrite <- !app_assoc. reflexivity.
    + rewrite Hposts, !attempts_app, attempts_prints, attempts_pause, Hatt.
      cbn. lia.
    + rewrite !attempts_app, attempts_prints, attempts_pause, Hatt.
      cbn [length]. cbn. lia.
    + rewrite Hclock. cbn [length]. lia.
    + rewrite !count_sleeps_app, (count_sleeps_backoff k gen_evs Hk Hsl).
      unfold count_sleeps at 2. rewrite sleeps_prints.
      rewrite count_sleeps_pause, Hcount. cbn [count_pauses length].
      cbn. lia.
Qed.

(** When the records are the last of the announced total, what the loop
    adds to the trace is one segment for each record, in order, and one
    pause between two segments. *)
Lemma university_loop_segments unis : forall total_processed w,
  Forall (fun uni => contains (lit "//") (url uni) = true) unis ->
  unis <> [] ->
  total_processed + Z.of_nat (length unis) = total ->
  exists w' segments,
    university_loop E H total total_processed unis w = (Returns total, w')
    /\ w_trace w' = w_trace w ++ join_with pause segments
    /\ length segments = length unis
    /\ forall (i : nat) uni segment,
         unis !! i = Some uni ->
         segments !! i = Some segment ->
         exists after_scheme domain rest,
           split (lit "//") (url uni) !! 1%nat = Some after_scheme
           /\ split (lit "/") after_scheme !! 0%nat = Some domain
           /\ segment
              = EvPrint (processing_line total
                           (total_processed + Z.of_nat i)
                           (college_name uni) domain) :: rest
           /\ count_sleeps 3 rest = 0%nat
           /\ (attempts rest <= 5)%nat.
Proof.
  induction unis as [|uni unis IH]; intros total_processed w Hurls Hne Hend;
    [done|].
  apply Forall_cons in Hurls as [Hurl Hurls].
  destruct (url_has_domain (url uni) Hurl)
    as (after_scheme & domain & Hscheme & Hdomain).
  destruct (process_university_run E H total stdout_ok total_processed uni
              w after_scheme domain Hscheme Hdomain)
    as (v & m & k & gen_evs & lines & _ & Hatt & Hm & Hk & Hsl & _ & _
        & Hrun).
  set (saved := map EvPrint
                  (match v with Some (_ :: _) => lines | _ => [] end)) in *.
  assert (Hquiet : count_sleeps 3 (gen_evs ++ saved) = 0%nat).
  { rewrite count_sleeps_app, (count_sleeps_backoff k gen_evs Hk Hsl).
    unfold count_sleeps, saved. by rewrite sleeps_prints. }
  assert (Hfew : (attempts (gen_evs ++ saved) <= 5)%nat).
  { rewrite attempts_app. unfold saved. rewrite attempts_prints. lia. }
  set (first := EvPrint (processing_line total total_processed
                           (college_name uni) domain)
                :: gen_evs ++ saved).
  assert (Hfirst : forall (i : nat) uni' segment,
            (uni :: unis) !! i = Some uni' ->
            [first] !! i = Some segment ->
            exists after_scheme domain rest,
              split (lit "//") (url uni') !! 1%nat = Some after_scheme
              /\ split (lit "/") after_scheme !! 0%nat = Some domain
              /\ segment
                 = EvPrint (processing_line total
                              (total_processed + Z.of_nat i)
                              (college_name uni') domain) :: rest
              /\ count_sleeps 3 rest = 0%nat
              /\ (attempts rest <= 5)%nat).
  { intros [|i] uni' segment Huni Hseg; [|done].
    injection Huni as <-. injection Hseg as <-.
    exists after_scheme, domain, (gen_evs ++ saved).
    rewrite Z.add_0_r. done. }
  cbn [university_loop]. rewrite run_bind, Hrun. cbv beta iota.
  destruct unis as [|next unis].
  - cbn [university_loop mret M_ret length] in *.
    assert (total_processed + 1 = total) as Hlast by lia.
    unfold pause_events. rewrite Hlast, Z.ltb_irrefl.
    eexists.
    exists [first].
    split; [reflexivity|]. split; [|split; [reflexivity|exact Hfirst]].
    cbn [w_trace join_with app]. by rewrite app_nil_r.
  - match goal with
    | |- context [university_loop E H total (total_processed + 1) _ ?w1] =>
        destruct (IH (total_processed + 1) w1 Hurls ltac:(done))
          as (w' & segments & Hloop & Htr & Hlen & Hsegs)
    end.
    { cbn [length] in *. lia. }
    rewrite Hloop. cbn [w_trace] in Htr.
    destruct segments as [|second segments]; [done|].
    exists w'.
    exists (first :: second :: segments).
    split; [reflexivity|]. split; [|split].
    + rewrite Htr, join_with_cons. unfold pause_events.
      destruct (Z.ltb_spec (total_processed + 1) total) as [_|Hge];
        [|cbn [length] in Hend; lia].
      unfold first. rewrite <- ?app_assoc. cbn [app].
      by rewrite <- ?app_assoc.
    + cbn [length] in *. lia.
    + intros [|i] uni' segment Huni Hseg.
      * apply (Hfirst 0%nat uni' segment); [exact Huni|exact Hseg].
      * destruct (Hsegs i uni' segment Huni Hseg)
          as (after' & domain' & rest & Hs' & Hd' & -> & Hq & Hf).
        exists after', domain', rest.
        replace (total_processed + Z.of_nat (S i))
          with (total_processed + 1 + Z.of_nat i) by lia.
        done.
Qed.

End Loop.

(** What the segments of a run have, read off one by one. *)
Lemma segments_quiet (unis : list university) (segments : list (list event))
    (P : nat -> university -> list event -> Prop) (Q : list event -> Prop) :
  length segments = length unis ->
  (forall (i : nat) uni segment,
     unis !! i = Some uni -> segments !! i = Some segment -> P i uni segment) ->
  (forall i uni segment, P i uni segment -> Q segment) ->
  Forall Q segments.
Proof.
  intros Hlen Hsegs HPQ. apply Forall_lookup. intros i segment Hseg.
  destruct (lookup_lt_is_Some_2 unis i) as [uni Huni].
  { rewrite <- Hlen. by eapply lookup_lt_Some. }
  by eapply HPQ, Hsegs.
Qed.





(** Without a key one pass sends nothing and writes nothing, whether it
    returns or raises. *)
Lemma process_university_without_key E H total total_processed uni w :
  API_KEY E = [] ->
  w_posts (process_university E H total total_processed uni w).2 = w_posts w
  /\ w_fs (process_university E H total total_processed uni w).2 = w_fs w.
Proof.
  intros Hkey.
  set (kept := fun r : outcome Z * world =>
                 w_posts r.2 = w_posts w /\ w_fs r.2 = w_fs w).
  change (kept (process_university E H total total_processed uni w)).
  unfold process_university, list_item.
  rewrite run_bind.
  destruct (split (lit "//") (url uni) !! 1%nat) as [after_scheme|];
    [|by unfold kept].
  cbn [mret M_ret]. rewrite run_bind.
  destruct (split (lit "/") after_scheme !! 0%nat) as [domain|];
    [|by unfold kept].
  cbn [mret M_ret]. rewrite run_bind. unfold print at 1.
  destruct (stdout_fault H _) as [e|]; [by unfold kept|].
  rewrite printed_run. cbv beta iota. rewrite run_bind.
  match goal with
  | |- context [generate_transfer_data E ?name ?dom ?w0] =>
      destruct (generate_summary E name dom w0)
        as (v & m & k & evs & Hgen & _ & _ & _ & _ & Hno & _)
  end.
  destruct (Hno Hkey) as [-> ->].
  rewrite Hgen. cbv beta iota.
  rewrite run_bind. cbn [mret M_ret]. cbv beta iota.
  rewrite run_bind.
  destruct (total_processed + 1 <? total).
  - rewrite run_bind. unfold print at 1.
    destruct (stdout_fault H _) as [e|].
    + unfold kept. cbn [raise advance tick w_posts w_fs snd].
      split; [lia|done].
    + rewrite printed_run. cbv beta iota. unfold time_sleep.
      change (POLITENESS_DELAY_SECONDS <? 0) with false. unfold emit, kept.
      cbn [mret M_ret advance tick w_posts w_fs snd]. split; [lia|done].
  - unfold kept. cbn [mret M_ret advance tick w_posts w_fs snd].
    split; [lia|done].
Qed.

(** X17.  Without a key, the loop sends nothing and writes nothing, for any list
    of records, also one that stops at a record without [//] in its URL. *)
Theorem no_key_no_effect E H total unis : forall total_processed w,
  API_KEY E = [] ->
  w_posts (university_loop E H total total_processed unis w).2 = w_posts w
  /\ w_fs (university_loop E H total total_processed unis w).2 = w_fs w.
Proof.
  induction unis as [|uni unis IH]; intros total_processed w Hkey; [done|].
  cbn [university_loop]. rewrite run_bind.
  destruct (process_university_without_key E H total total_processed uni w
              Hkey) as [Hposts Hfs].
  destruct (process_university E H total total_processed uni w)
    as [[next|e] w1].
  - destruct (IH next w1 Hkey) as [Hposts' Hfs'].
    cbn [snd] in Hposts, Hfs. by rewrite Hposts', Hfs'.
  - exact (conj Hposts Hfs).
Qed.

Lemma no_key_no_effect_witness :
  w_posts (university_loop (sample_env [] (fun _ => http_500)) sample_host 2 0
             [sample_university; sample_university] sample_world).2
  = w_posts sample_world
  /\ w_fs (university_loop (sample_env [] (fun _ => http_500)) sample_host 2 0
             [sample_university; sample_university] sample_world).2
     = w_fs sample_world.
Proof.
  apply (no_key_no_effect (sample_env [] (fun _ => http_500)) sample_host 2
           [sample_university; sample_university] 0 sample_world).
  reflexivity.
Defined.

(** X21.  A line that the terminal does not take stops the run: when [print]
    raises at line 165, outside any [try], the pass raises that exception
    before anything is sent or written for the record, and the loop ends
    there, the records after it never reached. *)
Theorem refused_line_stops_the_loop E H total total_processed uni w
    after_scheme domain e :
  split (lit "//") (url uni) !! 1%nat = Some after_scheme ->
  split (lit "/") after_scheme !! 0%nat = Some domain ->
  stdout_fault H (processing_line total total_processed (college_name uni)
                    domain) = Some e ->
  process_university E H total total_processed uni w = (Raises e, w)
  /\ forall rest,
       university_loop E H total total_processed (uni :: rest) w
       = (Raises e, w).
Proof.
  intros Hscheme Hdomain Hline.
  assert (Hrun : process_university E H total total_processed uni w
                 = (Raises e, w)).
  { unfold process_university, list_item.
    rewrite run_bind, Hscheme. cbn [mret M_ret].
    rewrite run_bind, Hdomain. cbn [mret M_ret].
    rewrite run_bind.
    fold (processing_line total total_processed (college_name uni) domain).
    by rewrite (print_refused H _ e). }
  split; [exact Hrun|].
  intros rest. cbn [university_loop]. by rewrite run_bind, Hrun.
Qed.

Lemma refused_line_stops_the_loop_witness :
  process_university (sample_env (lit "key") (fun _ => http_500))
      strict_utf8_host 2 0
      (University (lit "Universit" ++ [55296%N])
                  (lit "https://www.example.edu/"))
      sample_world
    = (Raises (encode_error
                 (processing_line 2 0 (lit "Universit" ++ [55296%N])
                    (lit "www.example.edu"))),
       sample_world)
  /\ forall rest,
       university_loop (sample_env (lit "key") (fun _ => http_500))
         strict_utf8_host 2 0
         (University (lit "Universit" ++ [55296%N])
                     (lit "https://www.example.edu/") :: rest)
         sample_world
       = (Raises (encode_error
                    (processing_line 2 0 (lit "Universit" ++ [55296%N])
                       (lit "www.example.edu"))),
          sample_world).
Proof.
  apply (refused_line_stops_the_loop
           (sample_env (lit "key") (fun _ => http_500)) strict_utf8_host 2 0
           (University (lit "Universit" ++ [55296%N])
                       (lit "https://www.example.edu/"))
           sample_world (lit "www.example.edu/") (lit "www.example.edu")
           (encode_error
              (processing_line 2 0 (lit "Universit" ++ [55296%N])
                 (lit "www.example.edu")))).
  - vm_compute. reflexivity.
  - vm_compute. reflexivity.
  - reflexivity.
Defined.

(** ** The script *)



(** ** The header of every returned text *)

Lemma try_result_header university_name domain t pr text :
  (exists t0 c, t = t0 ++ [c] /\ is_space c = false) ->
  try_result university_name domain t pr = inl text ->
  exists rest,
    text = header_prefix university_name domain ++ t ++ nl ++ rest.
Proof.
  intros Ht. unfold try_result. destruct (report_of pr) as [v|e]; [|done].
  destruct v; cbn [py_str_add mbind res_bind mret res_ret];
    try (intros H; discriminate H).
  intros H. apply inl_eq in H. subst text.
  rewrite strip_header_exact by done.
  rewrite <- !app_assoc. by eexists.
Qed.

Section Header.

Variable E : env.
Variables max_retries initial_delay : Z.
Variables university_name domain current_time : str.

Let req := build_request E university_name domain.
Let body :=
  attempt_body E max_retries initial_delay university_name domain current_time.

Hypothesis key_present : API_KEY E <> [].
Hypothesis delay_nonneg : 0 <= initial_delay.
Hypothesis time_written :
  exists t0 c, current_time = t0 ++ [c] /\ is_space c = false.

Lemma for_each_returns_header n : forall k w,
  0 <= k ->
  k + Z.of_nat (S n) = max_retries ->
  exists rest w',
    for_each body (seqZ k (Z.of_nat (S n))) w =
    (Returns (Return (Some (header_prefix university_name domain
                            ++ current_time ++ nl ++ rest))), w').
Proof.
  induction n as [|n IH]; intros k w Hk Hend;
    rewrite seqZ_succ; cbn [for_each]; rewrite run_bind; unfold body at 1;
    destruct (try_result university_name domain current_time
                (transport E (w_posts w) req)) as [text|e] eqn:Htry.
  - destruct (try_result_header _ _ _ _ _ time_written Htry) as [rest ->].
    rewrite (attempt_success E max_retries initial_delay university_name
               domain current_time key_present k w _ Htry).
    by do 2 eexists.
  - destruct (is_RequestException e) eqn:Hcls.
    + rewrite (attempt_exhausted E max_retries initial_delay university_name
                 domain current_time key_present k w e Htry Hcls); [|lia].
      rewrite failure_stub_time. by do 2 eexists.
    + rewrite (attempt_unexpected E max_retries initial_delay university_name
                 domain current_time key_present k w e Htry Hcls).
      rewrite failure_stub_time. by do 2 eexists.
  - destruct (try_result_header _ _ _ _ _ time_written Htry) as [rest ->].
    rewrite (attempt_success E max_retries initial_delay university_name
               domain current_time key_present k w _ Htry).
    by do 2 eexists.
  - destruct (is_RequestException e) eqn:Hcls.
    + rewrite (attempt_retry E max_retries initial_delay university_name
                 domain current_time key_present k w e Htry Hcls); [|lia|].
      * apply IH; lia.
      * apply Z.mul_nonneg_nonneg; [done|]. apply Z.pow_nonneg. lia.
    + rewrite (attempt_unexpected E max_retries initial_delay university_name
                 domain current_time key_present k w e Htry Hcls).
      rewrite failure_stub_time. by do 2 eexists.
Qed.

End Header.

Lemma generate_header E university_name domain w :
  API_KEY E <> [] ->
  exists rest w',
    generate_transfer_data E university_name domain w =
    (Returns (Some (header_prefix university_name domain
                    ++ strftime (clock E (w_clock_reads w)) ++ nl ++ rest)),
     w').
Proof.
  intros Hkey. unfold generate_transfer_data. rewrite generate_run.
  destruct (for_each_returns_header E 5 1 university_name domain
              (strftime (clock E (w_clock_reads w))) Hkey ltac:(lia)
              (strftime_last _) 4 0 (tick w)) as (rest & w' & Hrun);
    [lia|lia|].
  change (Z.of_nat 5) with 5 in Hrun. rewrite Hrun. by do 2 eexists.
Qed.



(** ** Two universities, one file *)



(** ** A name that cannot be written *)

Lemma utf8_encodable_app s t :
  utf8_encodable (s ++ t) = utf8_encodable s && utf8_encodable t.
Proof. apply forallb_app. Qed.

(** The header holds the name, so a text that opens with it cannot be
    encoded when the name cannot. *)
Lemma header_prefix_unencodable university_name domain rest :
  utf8_encodable university_name = false ->
  utf8_encodable (header_prefix university_name domain ++ rest) = false.
Proof.
  intros Hname. unfold header_prefix.
  rewrite !utf8_encodable_app, Hname.
  repeat match goal with
         | |- context [utf8_encodable ?s] => destruct (utf8_encodable s)
         end; reflexivity.
Qed.


